(** * The dashboard gateway (src/api/server.py): model and properties

    A shallow embedding of the request-forwarding layer of the Caia dashboard
    API: the upstream client [_request_upstream], the registry wrapper, the
    aggregate health check, checkpoint resolution, the inference pass-through
    and the evaluation-run orchestrator.

    Python values are modelled as follows.
    - [str] is a sequence of Unicode code points ([pystr]).
    - JSON-shaped values ([Any] in the source) are the inductive [json];
      a [dict] with string keys is a finite map ([gmap]), whose equality is
      Python's [==] on dicts.
    - [int] is [Z]; [bool] is an instance of [int], as in Python.
    - Handlers run in a small monad that threads the trace of external
      effects (HTTP calls, file-system accesses, clock readings, spawned
      processes) and returns a value or a raised exception. *)

From Stdlib Require Import ZArith NArith String Ascii List Floats Lia DecimalString.
From stdpp Require Import base option list gmap.
Import ListNotations.

#[local] Set Warnings "-register-all".
#[local] Open Scope Z_scope.

(** ** Python strings *)

Definition pystr := list N.

(** A literal of the source, as code points. *)
Definition str (s : string) : pystr :=
  map N_of_ascii (list_ascii_of_string s).

Fixpoint pystr_eqb (a b : pystr) : bool :=
  match a, b with
  | [], [] => true
  | x :: a', y :: b' => N.eqb x y && pystr_eqb a' b'
  | _, _ => false
  end.

(** [str.isspace] on one code point: the white-space table of CPython
    ([_PyUnicode_IsWhitespace]). *)
Definition is_whitespace (c : N) : bool :=
  ((9 <=? c) && (c <=? 13) || (28 <=? c) && (c <=? 32)
   || (c =? 133) || (c =? 160) || (c =? 5760)
   || (8192 <=? c) && (c <=? 8202)
   || (c =? 8232) || (c =? 8233) || (c =? 8239) || (c =? 8287)
   || (c =? 12288))%N.

Fixpoint lstrip_by (p : N -> bool) (s : pystr) : pystr :=
  match s with
  | [] => []
  | c :: t => if p c then lstrip_by p t else s
  end.

Fixpoint rstrip_by (p : N -> bool) (s : pystr) : pystr :=
  match s with
  | [] => []
  | c :: t =>
      match rstrip_by p t with
      | [] => if p c then [] else [c]
      | t' => c :: t'
      end
  end.

(** [s.strip()] *)
Definition strip (s : pystr) : pystr :=
  lstrip_by is_whitespace (rstrip_by is_whitespace s).

(** [s.rstrip(chars)] *)
Definition rstrip_chars (chars s : pystr) : pystr :=
  rstrip_by (fun c => existsb (N.eqb c) chars) s.

(** [s.startswith(p)] *)
Fixpoint startswith (p s : pystr) : bool :=
  match p, s with
  | [], _ => true
  | x :: p', y :: s' => N.eqb x y && startswith p' s'
  | _ :: _, [] => false
  end.

(** [sub in s] *)
Fixpoint contains (sub s : pystr) : bool :=
  startswith sub s ||
  match s with
  | [] => false
  | _ :: t => contains sub t
  end.

(** [s.replace(old, new)] for a non-empty [old]: the non-overlapping
    occurrences, left to right.  [skip] counts the code points of a matched
    occurrence that are still to be dropped. *)
Fixpoint replace_from (old new : pystr) (skip : nat) (s : pystr) : pystr :=
  match s with
  | [] => []
  | c :: t =>
      match skip with
      | S k => replace_from old new k t
      | O =>
          if startswith old s
          then new ++ replace_from old new (Nat.pred (length old)) t
          else c :: replace_from old new 0 t
      end
  end.

Definition replace (old new s : pystr) : pystr := replace_from old new 0 s.

(** [str(n)] for an [int]. *)
Definition str_of_Z (z : Z) : pystr :=
  str (NilEmpty.string_of_int (Z.to_int z)).

(** ** JSON-shaped values *)

Inductive json :=
| JNull
| JBool (b : bool)
| JInt (z : Z)
| JFloat (f : float)
| JStr (s : pystr)
| JList (l : list json)
| JDict (d : gmap pystr json).

Abbreviation dict := (gmap pystr json).

(** A dict display [{k1: v1, ..., kn: vn}]: the pairs are inserted from left
    to right, so a later pair wins over an earlier one with the same key. *)
Definition dict_of (l : list (pystr * json)) : dict :=
  fold_left (fun d kv => <[kv.1 := kv.2]> d) l ∅.

(** [d.get(k)] *)
Definition dict_get (d : dict) (k : pystr) : json :=
  match d !! k with
  | Some v => v
  | None => JNull
  end.

(** Truth value of an object. *)
Definition truthy (v : json) : bool :=
  match v with
  | JNull => false
  | JBool b => b
  | JInt z => negb (z =? 0)
  | JFloat f => negb (PrimFloat.eqb f 0%float)
  | JStr s => match s with [] => false | _ => true end
  | JList l => match l with [] => false | _ => true end
  | JDict d => negb (bool_decide (d = ∅))
  end.

(** [a or b] *)
Definition py_or (a b : json) : json := if truthy a then a else b.

(** [isinstance(v, int)]: [bool] is a subclass of [int]. *)
Definition is_int (v : json) : bool :=
  match v with
  | JInt _ | JBool _ => true
  | _ => false
  end.

(** The integer value of an [int] instance ([int(v)]). *)
Definition int_value (v : json) : Z :=
  match v with
  | JInt z => z
  | JBool true => 1
  | _ => 0
  end.

(** [isinstance(v, str) and v.strip()] *)
Definition is_nonblank_str (v : json) : bool :=
  match v with
  | JStr s => match strip s with [] => false | _ => true end
  | _ => false
  end.

(** ** Exceptions, requests, responses, paths *)

(** [fastapi.HTTPException] *)
Record HTTPException := { exc_status : Z; exc_detail : json }.

(** An [httpx] request as issued by [client.request]. *)
Record request := {
  req_method : pystr;
  req_url : pystr;
  req_params : json;
  req_json : json;
  req_headers : gmap pystr pystr
}.

(** The part of an [httpx.Response] the gateway reads. *)
Record response := { status_code : Z; text : pystr }.

(** A [pathlib.Path] expression: a root and the components joined by [/]. *)
Inductive Path :=
| PathOf (s : pystr)
| PathDiv (p : Path) (s : pystr).

(** [subprocess.CompletedProcess] with captured text streams. *)
Record CompletedProcess := { returncode : Z; stdout : pystr; stderr : pystr }.

(** External effects, in the order they happen. *)
Inductive event :=
| HttpCall (r : request)
| PathExists (p : Path)
| ReadText (p : Path)
| Mkdir (p : Path)
| ClockRead
| Spawn (cmd : list pystr) (cwd : pystr).

Definition trace := list event.

(** ** Configuration and external collaborators *)

(** The module-level constants of server.py. *)
Class Config := {
  REGISTRY_URL : pystr;
  REGISTRY_API_KEY : option pystr;
  ARTIFACT_CACHE_URL : pystr;
  ARTIFACT_CACHE_API_KEY : option pystr;
  ONYX_API_URL : pystr;
  ONYX_API_KEY : option pystr;
  EVAL_SERVICE_DIR : Path;
  EVAL_RUNS_DIR : Path
}.

(** How [client.request] can fail: with an [httpx.RequestError], which the
    gateway catches, or with an exception of another kind (for instance
    [httpx.InvalidURL] for a base URL that cannot be parsed, or the
    [ValueError] of a body that cannot be encoded), which it does not. *)
Inductive client_failure :=
| RequestError (message : pystr)
| OtherException (what : pystr).

(** What the gateway calls but does not implement.  Each answer may depend on
    everything that happened before (the trace). *)
Class Runtime := {
  (** [client.request]: a response, or the exception it raises *)
  client_request : trace -> request -> client_failure + response;
  (** [resp.json()] on a body: the value, or the message of the exception *)
  json_loads : pystr -> pystr + json;
  (** [Path.exists]; [None] when it raises *)
  path_exists : trace -> Path -> option bool;
  (** [Path.read_text]; [None] when it raises *)
  read_text : trace -> Path -> option pystr;
  (** [Path.mkdir(parents=True, exist_ok=True)]; [false] when it raises *)
  mkdir : trace -> Path -> bool;
  (** [datetime.now(timezone.utc)], in microseconds since the epoch *)
  utcnow : trace -> Z;
  (** [datetime.isoformat] *)
  isoformat : Z -> pystr;
  (** [subprocess.run(cmd, cwd=...)]; [None] when the spawn itself raises *)
  subprocess_run : trace -> list pystr -> pystr -> option CompletedProcess;
  (** [str(path)] *)
  path_str : Path -> pystr;
  (** [sys.executable] *)
  sys_executable : pystr;
  (** [str(v)] for floats, lists and dicts *)
  py_repr : json -> pystr;
  (** whether [JSONResponse(content=v)] can be built, that is, whether
      [json.dumps(v, allow_nan=False).encode("utf-8")] returns *)
  json_renders : json -> bool
}.

(** ** The handler monad *)

Inductive outcome (A : Type) :=
| Ok (a : A)
| Raise (e : HTTPException)
| Uncaught (what : pystr).
Arguments Ok {A} a.
Arguments Raise {A} e.
Arguments Uncaught {A} what.

Definition M (A : Type) : Type := trace -> outcome A * trace.

Definition ret {A} (a : A) : M A := fun tr => (Ok a, tr).

Definition bind {A B} (m : M A) (k : A -> M B) : M B :=
  fun tr =>
    match m tr with
    | (Ok a, tr') => k a tr'
    | (Raise e, tr') => (Raise e, tr')
    | (Uncaught w, tr') => (Uncaught w, tr')
    end.

(** [raise HTTPException(status_code=..., detail=...)] *)
Definition raise {A} (status : Z) (detail : json) : M A :=
  fun tr => (Raise {| exc_status := status; exc_detail := detail |}, tr).

(** An exception no handler of the gateway catches. *)
Definition crash {A} (what : pystr) : M A := fun tr => (Uncaught what, tr).

(** One external effect: log it and continue with the runtime's answer. *)
Definition effect {A} (ev : event) (answer : trace -> A) : M A :=
  fun tr => (Ok (answer tr), tr ++ [ev]).

Declare Scope gw_scope.
Delimit Scope gw_scope with gw.
Notation "x <- m ;; k" := (bind m (fun x => k))
  (at level 100, m at next level, right associativity) : gw_scope.
Notation "'do' m ;; k" := (bind m (fun _ => k))
  (at level 100, m at next level, right associativity) : gw_scope.
#[local] Open Scope gw_scope.

(** ** Configuration from the process environment (server.py, lines 22-39) *)

(** [os.getenv(name) or default] *)
Definition getenv_or (environ : pystr -> option pystr) (name default : pystr) : pystr :=
  match environ name with
  | Some (c :: v) => c :: v
  | _ => default
  end.

Definition _clean_base_url (raw : pystr) : pystr :=
  let v := strip raw in
  match v with
  | [] => []
  | _ => rstrip_chars (str "/") v
  end.

(** The stripped value of the variable [name], or [None] when that is empty. *)
Definition api_key_of_env (environ : pystr -> option pystr) (name : pystr) : option pystr :=
  match strip (getenv_or environ name []) with
  | [] => None
  | k => Some k
  end.

Definition load_config (environ : pystr -> option pystr)
    (eval_service_dir eval_runs_dir : Path) : Config :=
  {| REGISTRY_URL :=
       _clean_base_url (getenv_or environ (str "CAIA_REGISTRY_URL") (str "http://127.0.0.1:8001"));
     REGISTRY_API_KEY := api_key_of_env environ (str "CAIA_REGISTRY_API_KEY");
     ARTIFACT_CACHE_URL :=
       _clean_base_url
         (getenv_or environ (str "CAIA_ARTIFACT_CACHE_URL") (str "http://127.0.0.1:8002"));
     ARTIFACT_CACHE_API_KEY := api_key_of_env environ (str "CAIA_ARTIFACT_CACHE_API_KEY");
     ONYX_API_URL :=
       _clean_base_url (getenv_or environ (str "CAIA_ONYX_API_URL") (str "http://127.0.0.1:8000"));
     ONYX_API_KEY := api_key_of_env environ (str "CAIA_ONYX_API_KEY");
     EVAL_SERVICE_DIR := eval_service_dir;
     EVAL_RUNS_DIR := eval_runs_dir |}.

(** ** The gateway *)

Section Gateway.
Context {cfg : Config} {rt : Runtime}.

(** [bool(key)] for an optional API key. *)
Definition key_configured (k : option pystr) : bool :=
  match k with
  | Some (_ :: _) => true
  | _ => false
  end.

Definition _require_registry_key : M pystr :=
  match REGISTRY_API_KEY with
  | Some (c :: k) => ret (c :: k)
  | _ => raise 503 (JStr (str "CAIA_REGISTRY_API_KEY not set for dashboard API"))
  end.

(** The error payload of a response with status >= 400: its decoded body,
    else [{"detail": resp.text}]. *)
Definition error_payload (resp : response) : json :=
  match json_loads (text resp) with
  | inr v => v
  | inl _ => JDict (dict_of [(str "detail", JStr (text resp))])
  end.

Definition _request_upstream (upstream base_url method path : pystr)
    (params json_body : json) (headers : gmap pystr pystr) : M json :=
  match base_url with
  | [] => raise 503 (JStr (upstream ++ str " base URL not configured"))
  | _ :: _ =>
      let req := {| req_method := method; req_url := base_url ++ path;
                    req_params := params; req_json := json_body;
                    req_headers := headers |} in
      r <- effect (HttpCall req) (fun tr => client_request tr req) ;;
      match r with
      | inl (RequestError e) =>
          raise 502 (JStr (upstream ++ str " request failed: " ++ e))
      | inl (OtherException what) => crash what
      | inr resp =>
          if 400 <=? status_code resp then
            raise (status_code resp)
              (JDict (dict_of [(str "upstream", JStr upstream);
                               (str "error", error_payload resp)]))
          else if status_code resp =? 204 then ret JNull
          else
            match json_loads (text resp) with
            | inr v => ret v
            | inl e => raise 502 (JStr (upstream ++ str " returned invalid JSON: " ++ e))
            end
      end
  end.

Definition _registry_request (method path : pystr) (params json_body : json)
    (require_key : bool) : M json :=
  headers <- (if require_key
              then k <- _require_registry_key ;; ret ({[ str "X-API-Key" := k ]} : gmap pystr pystr)
              else ret ∅) ;;
  _request_upstream (str "model-registry") REGISTRY_URL method path params json_body headers.

(** [t.isoformat().replace("+00:00", "Z")] *)
Definition utc_stamp (t : Z) : pystr :=
  replace (str "+00:00") (str "Z") (isoformat t).

Definition _now_utc_iso : M pystr :=
  effect ClockRead (fun tr => utc_stamp (utcnow tr)).

Definition _safe_run_id (raw : pystr) : M pystr :=
  let s := strip raw in
  match s with
  | [] => raise 400 (JStr (str "eval_run_id is required"))
  | _ :: _ =>
      if existsb (fun c => contains c s) [str "/"; str "\"; [0%N]]
      then raise 400 (JStr (str "Invalid eval_run_id"))
      else ret s
  end.

(** [path.exists()] *)
Definition path_test (path : Path) : M bool :=
  r <- effect (PathExists path) (fun tr => path_exists tr path) ;;
  match r with
  | Some present => ret present
  | None => crash (str "OSError")
  end.

(** [try: detail = await call; ok = True / except HTTPException as e:
    detail = e.detail]: the pair [(ok, detail)]. *)
Definition probe (call : M json) : M (bool * json) :=
  fun tr =>
    match call tr with
    | (Ok v, tr') => (Ok (true, v), tr')
    | (Raise e, tr') => (Ok (false, exc_detail e), tr')
    | (Uncaught w, tr') => (Uncaught w, tr')
    end.

(** One per-upstream entry of the health report. *)
Definition health_entry (url : pystr) (key : option pystr) (r : bool * json) : json :=
  JDict (dict_of [(str "url", JStr url);
                  (str "reachable", JBool r.1);
                  (str "auth_configured", JBool (key_configured key));
                  (str "detail", r.2)]).

Definition health : M json :=
  registry <- probe (_registry_request (str "GET") (str "/health") JNull JNull false) ;;
  artifact <- probe (_request_upstream (str "artifact-cache-service") ARTIFACT_CACHE_URL
                       (str "GET") (str "/health") JNull JNull ∅) ;;
  onyx <- probe (_request_upstream (str "onyx-api") ONYX_API_URL
                   (str "GET") (str "/health") JNull JNull ∅) ;;
  present <- path_test EVAL_SERVICE_DIR ;;
  ret (JDict (dict_of
    [(str "status", JStr (str "ok"));
     (str "registry", health_entry REGISTRY_URL REGISTRY_API_KEY registry);
     (str "artifact_cache", health_entry ARTIFACT_CACHE_URL ARTIFACT_CACHE_API_KEY artifact);
     (str "onyx_api", health_entry ONYX_API_URL ONYX_API_KEY onyx);
     (str "eval", JDict (dict_of
        [(str "eval_service_dir", JStr (path_str EVAL_SERVICE_DIR));
         (str "eval_service_present", JBool present);
         (str "eval_runs_dir", JStr (path_str EVAL_RUNS_DIR))]))])).

(** *** Artifact cache *)

Definition api_key_headers (key : option pystr) : gmap pystr pystr :=
  match key with
  | Some (c :: k) => {[ str "X-API-Key" := c :: k ]}
  | _ => ∅
  end.

Definition _artifact_cache_headers : gmap pystr pystr :=
  api_key_headers ARTIFACT_CACHE_API_KEY.

(** [isinstance(size_bytes, int) and size_bytes >= 0] *)
Definition is_size (v : json) : bool := is_int v && (0 <=? int_value v).

(** The [POST /resolve] call to the artifact cache with a given body. *)
Definition artifact_resolve (body : json) : M json :=
  _request_upstream (str "artifact-cache-service") ARTIFACT_CACHE_URL
    (str "POST") (str "/resolve") JNull body _artifact_cache_headers.

(** The body sent for a [file://] or bare-path artifact. *)
Definition local_payload (artifact_uri : pystr) (sha256 size_bytes : json) : dict :=
  let p0 : dict := dict_of [(str "artifact_uri", JStr artifact_uri)] in
  let p1 : dict :=
    match sha256 with
    | JStr s => if is_nonblank_str sha256 then <[str "sha256" := JStr (strip s)]> p0 else p0
    | _ => p0
    end in
  if is_size size_bytes then <[str "size_bytes" := JInt (int_value size_bytes)]> p1 else p1.

Definition resolve_model_checkpoint (model_id : Z) : M json :=
  model <- _registry_request (str "GET") (str "/models/" ++ str_of_Z model_id) JNull JNull true ;;
  match model with
  | JDict m =>
      match dict_get m (str "artifact_uri") with
      | JStr raw_uri =>
          match strip raw_uri with
          | [] => raise 400 (JStr (str "Model is missing artifact_uri"))
          | (_ :: _) as artifact_uri =>
              let sha256 := dict_get m (str "checkpoint_sha256") in
              let size_bytes := dict_get m (str "checkpoint_size_bytes") in
              if startswith (str "s3://") artifact_uri then
                if negb (is_nonblank_str sha256) then
                  raise 400 (JStr (str "Remote artifact requires checkpoint_sha256"))
                else if negb (is_size size_bytes) then
                  raise 400 (JStr (str "Remote artifact requires checkpoint_size_bytes"))
                else
                  artifact_resolve
                    (JDict (dict_of [(str "artifact_uri", JStr artifact_uri);
                                     (str "sha256", sha256);
                                     (str "size_bytes", JInt (int_value size_bytes))]))
              else if startswith (str "file://") artifact_uri
                      || negb (contains (str "://") artifact_uri) then
                artifact_resolve (JDict (local_payload artifact_uri sha256 size_bytes))
              else
                raise 400 (JStr (str "Unsupported artifact_uri scheme for resolution: "
                                 ++ artifact_uri))
          end
      | _ => raise 400 (JStr (str "Model is missing artifact_uri"))
      end
  | _ => raise 502 (JStr (str "model-registry returned invalid model payload"))
  end.

(** *** Onyx inference *)

Definition _onyx_headers : gmap pystr pystr := api_key_headers ONYX_API_KEY.

(** [body = dict(body); body["stream"] = False] when [body] is a dict. *)
Definition force_non_streaming (body : json) : json :=
  match body with
  | JDict b => JDict (<[str "stream" := JBool false]> b)
  | _ => body
  end.

Definition onyx_generate (body : json) : M json :=
  _request_upstream (str "onyx-api") ONYX_API_URL (str "POST") (str "/generate")
    JNull (force_non_streaming body) _onyx_headers.

Definition onyx_chat (body : json) : M json :=
  _request_upstream (str "onyx-api") ONYX_API_URL (str "POST") (str "/chat")
    JNull (force_non_streaming body) _onyx_headers.

(** *** Evaluation runs *)

Definition runner_path : Path :=
  PathDiv (PathDiv EVAL_SERVICE_DIR (str "caiatech_eval_service")) (str "runner.py").

Definition _eval_service_present : M bool := path_test runner_path.

Definition _default_inference_url : pystr :=
  match ONYX_API_URL with
  | [] => str "http://127.0.0.1:8000"
  | u => u
  end.

(** [EVAL_RUNS_DIR.mkdir(parents=True, exist_ok=True)] *)
Definition make_runs_dir : M unit :=
  ok <- effect (Mkdir EVAL_RUNS_DIR) (fun tr => mkdir tr EVAL_RUNS_DIR) ;;
  if ok : bool then ret tt else crash (str "OSError").

(** [httpx.Response(200, text=path.read_text(encoding="utf-8")).json()] *)
Definition read_json (path : Path) : M json :=
  data <- effect (ReadText path) (fun tr => read_text tr path) ;;
  match data with
  | None => crash (str "OSError")
  | Some t =>
      match json_loads t with
      | inr v => ret v
      | inl e => crash e
      end
  end.

Definition get_eval_summary (eval_run_id : pystr) : M json :=
  rid <- _safe_run_id eval_run_id ;;
  let path := PathDiv EVAL_RUNS_DIR (rid ++ str "_summary.json") in
  present <- path_test path ;;
  if present : bool then
    content <- read_json path ;;
    if json_renders content then ret content else crash (str "ValueError")
  else raise 404 (JStr (str "Eval summary not found")).

(** Returns the path handed to [FileResponse(path, media_type="application/jsonl")]. *)
Definition get_eval_jsonl (eval_run_id : pystr) : M Path :=
  rid <- _safe_run_id eval_run_id ;;
  let path := PathDiv EVAL_RUNS_DIR (rid ++ str ".jsonl") in
  present <- path_test path ;;
  if present : bool then ret path
  else raise 404 (JStr (str "Eval jsonl not found")).

(** [str(v)] *)
Definition py_str (v : json) : pystr :=
  match v with
  | JStr s => s
  | JInt z => str_of_Z z
  | JBool true => str "True"
  | JBool false => str "False"
  | JNull => str "None"
  | _ => py_repr v
  end.

Definition SUITES : list pystr := [str "smoke-v1"; str "core-v1"; str "math-corpus-v1"].

Definition TUNING_KNOBS : list (pystr * pystr) :=
  [(str "timeout_seconds", str "--timeout-seconds");
   (str "retries", str "--retries");
   (str "backoff_seconds", str "--backoff-seconds");
   (str "max_tokens", str "--max-tokens");
   (str "temperature", str "--temperature")].

(** The optional [--flag value] pairs, in the order of [TUNING_KNOBS]. *)
Definition tuning_flags (body : dict) : list pystr :=
  flat_map (fun kf : pystr * pystr =>
              match dict_get body kf.1 with
              | JNull => []
              | value => [kf.2; py_str value]
              end) TUNING_KNOBS.

Definition eval_command (key suite : pystr) (model_id : json) (inference_url : pystr)
    (body : dict) : list pystr :=
  [sys_executable; str "-m"; str "caiatech_eval_service.runner";
   str "--registry-url"; REGISTRY_URL;
   str "--api-key"; key;
   str "--suite"; suite;
   str "--model-id"; py_str model_id;
   str "--inference-url"; strip inference_url;
   str "--eval-runs-dir"; path_str EVAL_RUNS_DIR]
  ++ tuning_flags body.

(** [subprocess.run(cmd, cwd=..., capture_output=True, text=True)] *)
Definition run_process (cmd : list pystr) (cwd : pystr) : M CompletedProcess :=
  p <- effect (Spawn cmd cwd) (fun tr => subprocess_run tr cmd cwd) ;;
  match p with
  | Some proc => ret proc
  | None => crash (str "OSError")
  end.

Definition EVAL_UPSTREAM : pystr * json :=
  (str "upstream", JStr (str "caiatech-eval-service")).

(** The outcome of a finished process (server.py, lines 540-566). *)
Definition eval_outcome (started_at : pystr) (proc : CompletedProcess) : M json :=
  if negb (returncode proc =? 0) then
    raise 502 (JDict (dict_of
      [EVAL_UPSTREAM;
       (str "returncode", JInt (returncode proc));
       (str "stdout", JStr (strip (stdout proc)));
       (str "stderr", JStr (strip (stderr proc)))]))
  else
  let out := strip (stdout proc) in
  match json_loads out with
  | inl e =>
      raise 502 (JDict (dict_of
        [EVAL_UPSTREAM;
         (str "error", JStr (str "Invalid JSON on stdout: " ++ e));
         (str "stdout", JStr out)]))
  | inr (JDict result) =>
      match dict_get result (str "eval_run_id") with
      | JStr _ =>
          finished_at <- _now_utc_iso ;;
          ret (JDict (<[str "finished_at" := JStr finished_at]>
                        (<[str "started_at" := JStr started_at]> result)))
      | _ =>
          raise 502 (JDict (dict_of
            [EVAL_UPSTREAM; (str "error", JStr (str "Missing eval_run_id"))]))
      end
  | inr _ =>
      raise 502 (JDict (dict_of
        [EVAL_UPSTREAM; (str "error", JStr (str "Missing eval_run_id"))]))
  end.

Definition run_eval (body : json) : M json :=
  match body with
  | JDict b =>
      let model_id := dict_get b (str "model_id") in
      let suite := dict_get b (str "suite") in
      let inference_url :=
        py_or (dict_get b (str "inference_url")) (JStr _default_inference_url) in
      if negb (is_int model_id) then
        raise 400 (JStr (str "model_id must be an integer"))
      else
      match suite with
      | JStr raw_suite =>
          match strip raw_suite with
          | [] => raise 400 (JStr (str "suite is required"))
          | (_ :: _) as suite =>
              if negb (existsb (pystr_eqb suite) SUITES) then
                raise 400 (JStr (str
                  "suite must be one of: smoke-v1, core-v1, math-corpus-v1"))
              else
              match inference_url with
              | JStr url =>
                  if negb (is_nonblank_str inference_url) then
                    raise 400 (JStr (str "inference_url is required"))
                  else
                  present <- _eval_service_present ;;
                  if negb present then
                    raise 503 (JStr (str "Eval service not found at "
                                     ++ path_str EVAL_SERVICE_DIR
                                     ++ str " (set CAIA_EVAL_SERVICE_DIR)"))
                  else
                  do make_runs_dir ;;
                  key <- _require_registry_key ;;
                  let cmd := eval_command key suite model_id url b in
                  started_at <- _now_utc_iso ;;
                  proc <- run_process cmd (path_str EVAL_SERVICE_DIR) ;;
                  eval_outcome started_at proc
              | _ => raise 400 (JStr (str "inference_url is required"))
              end
          end
      | _ => raise 400 (JStr (str "suite is required"))
      end
  | _ => raise 400 (JStr (str "Invalid JSON body"))
  end.

End Gateway.

(** ** A reference JSON decoder

    The grammar [json.loads] accepts (RFC 8259 plus [NaN], [Infinity] and
    [-Infinity]), on the text of a body.  The conversion of a float literal
    is left to [parse_float], as in [json.JSONDecoder].  The properties of
    the gateway below hold for any decoder ([json_loads] of [Runtime]); this
    one serves to run the gateway on concrete bodies. *)

Section Decoder.
Variable parse_float : pystr -> float.

Definition is_json_ws (c : N) : bool :=
  ((c =? 32) || (c =? 9) || (c =? 10) || (c =? 13))%N.

Definition skip_ws (s : pystr) : pystr := lstrip_by is_json_ws s.

Definition is_digit (c : N) : bool := ((48 <=? c) && (c <=? 57))%N.

Definition hex_digit (c : N) : option N :=
  (if is_digit c then Some (c - 48)
   else if (97 <=? c) && (c <=? 102) then Some (c - 87)
   else if (65 <=? c) && (c <=? 70) then Some (c - 55)
   else None)%N.

Definition hex4 (s : pystr) : option (N * pystr) :=
  match s with
  | a :: b :: c :: d :: t =>
      match hex_digit a, hex_digit b, hex_digit c, hex_digit d with
      | Some x, Some y, Some z, Some w => Some ((((x * 16 + y) * 16 + z) * 16 + w)%N, t)
      | _, _, _, _ => None
      end
  | _ => None
  end.

(** The character a one-letter escape stands for. *)
Definition unescape (c : N) : option N :=
  (if (c =? 34) || (c =? 92) || (c =? 47) then Some c
   else if c =? 98 then Some 8
   else if c =? 102 then Some 12
   else if c =? 110 then Some 10
   else if c =? 114 then Some 13
   else if c =? 116 then Some 9
   else None)%N.

(** A low-surrogate escape right after a high surrogate: the joined code
    point and the rest. *)
Definition low_surrogate_after (hi : N) (s : pystr) : option (N * pystr) :=
  (if (55296 <=? hi) && (hi <=? 56319) then
     match s with
     | 92 :: 117 :: t =>
         match hex4 t with
         | Some (lo, t') =>
             if (56320 <=? lo) && (lo <=? 57343)
             then Some (65536 + ((hi - 55296) * 1024 + (lo - 56320)), t')
             else None
         | None => None
         end
     | _ => None
     end
   else None)%N.

(** The characters of a string up to its closing quote, and the rest. *)
Fixpoint scan_string (fuel : nat) (s : pystr) : option (pystr * pystr) :=
  match fuel with
  | O => None
  | S f =>
      match s with
      | [] => None
      | c :: t =>
          if (c =? 34)%N then Some ([], t)
          else if (c =? 92)%N then
            match t with
            | [] => None
            | e :: t1 =>
                if (e =? 117)%N then
                  match hex4 t1 with
                  | Some (u, t2) =>
                      let '(cp, rest) :=
                        match low_surrogate_after u t2 with
                        | Some joined => joined
                        | None => (u, t2)
                        end in
                      r ← scan_string f rest; Some (cp :: r.1, r.2)
                  | None => None
                  end
                else
                  x ← unescape e; r ← scan_string f t1; Some (x :: r.1, r.2)
            end
          else if (c <? 32)%N then None
          else r ← scan_string f t; Some (c :: r.1, r.2)
      end
  end.

Fixpoint take_digits (s : pystr) : pystr * pystr :=
  match s with
  | c :: t => if is_digit c then let r := take_digits t in (c :: r.1, r.2) else ([], s)
  | [] => ([], [])
  end.

Definition digits_value (ds : pystr) : Z :=
  fold_left (fun acc c => acc * 10 + Z.of_N (c - 48)) ds 0.

(** A number: an optional minus sign, then 0 or a digit string without a
    leading 0, then an optional fraction (a dot and digits) and an optional
    exponent (e or E, an optional sign, digits). *)
Definition scan_number (s : pystr) : option (json * pystr) :=
  let '(neg, s1) :=
    match s with
    | c :: t => if (c =? 45)%N then (true, t) else (false, s)
    | [] => (false, s)
    end in
  match s1 with
  | d :: t =>
      if is_digit d then
        let '(int_digits, rest) := if (d =? 48)%N then ([d], t) else take_digits s1 in
        let '(frac, rest1) :=
          match rest with
          | p :: r =>
              if (p =? 46)%N then
                match take_digits r with
                | ([], _) => ([], rest)
                | (ds, r') => (p :: ds, r')
                end
              else ([], rest)
          | [] => ([], rest)
          end in
        let '(exp, rest2) :=
          match rest1 with
          | e :: r =>
              if ((e =? 101) || (e =? 69))%N then
                let '(sign, r1) :=
                  match r with
                  | c :: r' => if ((c =? 43) || (c =? 45))%N then ([c], r') else ([], r)
                  | [] => ([], r)
                  end in
                match take_digits r1 with
                | ([], _) => ([], rest1)
                | (ds, r2) => (e :: sign ++ ds, r2)
                end
              else ([], rest1)
          | [] => ([], rest1)
          end in
        let sign_text : pystr := if neg then [45%N] else [] in
        match frac, exp with
        | [], [] =>
            Some (JInt (if neg then - digits_value int_digits else digits_value int_digits),
                  rest2)
        | _, _ => Some (JFloat (parse_float (sign_text ++ int_digits ++ frac ++ exp)), rest2)
        end
      else None
  | [] => None
  end.

(** A literal [word] at the head of [s]. *)
Definition scan_word (word : string) (v : json) (s : pystr) : option (json * pystr) :=
  if startswith (str word) s then Some (v, drop (length (str word)) s) else None.

Fixpoint scan_once (fuel : nat) (s : pystr) : option (json * pystr) :=
  match fuel with
  | O => None
  | S f =>
      match s with
      | [] => None
      | c :: t =>
          if (c =? 34)%N then
            r ← scan_string (length t) t; Some (JStr r.1, r.2)
          else if (c =? 123)%N then
            match skip_ws t with
            | c' :: t' =>
                if (c' =? 125)%N then Some (JDict ∅, t') else scan_members f (c' :: t') ∅
            | [] => None
            end
          else if (c =? 91)%N then
            match skip_ws t with
            | c' :: t' =>
                if (c' =? 93)%N then Some (JList [], t') else scan_elements f (c' :: t') []
            | [] => None
            end
          else
            match scan_word "null" JNull s, scan_word "true" (JBool true) s,
                  scan_word "false" (JBool false) s, scan_number s with
            | Some r, _, _, _ | None, Some r, _, _ | None, None, Some r, _
            | None, None, None, Some r => Some r
            | None, None, None, None =>
                match scan_word "NaN" (JFloat nan) s,
                      scan_word "Infinity" (JFloat infinity) s,
                      scan_word "-Infinity" (JFloat neg_infinity) s with
                | Some r, _, _ | None, Some r, _ | None, None, Some r => Some r
                | None, None, None => None
                end
            end
      end
  end
with scan_members (fuel : nat) (s : pystr) (acc : dict) : option (json * pystr) :=
  match fuel with
  | O => None
  | S f =>
      match s with
      | q :: t =>
          if (q =? 34)%N then
            k ← scan_string (length t) t;
            match skip_ws k.2 with
            | colon :: r =>
                if (colon =? 58)%N then
                  v ← scan_once f (skip_ws r);
                  let acc' := <[k.1 := v.1]> acc in
                  match skip_ws v.2 with
                  | sep :: r' =>
                      if (sep =? 44)%N then scan_members f (skip_ws r') acc'
                      else if (sep =? 125)%N then Some (JDict acc', r')
                      else None
                  | [] => None
                  end
                else None
            | [] => None
            end
          else None
      | [] => None
      end
  end
with scan_elements (fuel : nat) (s : pystr) (acc : list json) : option (json * pystr) :=
  match fuel with
  | O => None
  | S f =>
      v ← scan_once f s;
      match skip_ws v.2 with
      | sep :: r =>
          if (sep =? 44)%N then scan_elements f (skip_ws r) (acc ++ [v.1])
          else if (sep =? 93)%N then Some (JList (acc ++ [v.1]), r)
          else None
      | [] => None
      end
  end.

(** [json.loads] on the text of a UTF-8 body: one leading byte-order mark is
    dropped, white space may surround the single document. *)
Definition loads (s : pystr) : option json :=
  let s := match s with c :: t => if (c =? 65279)%N then t else s | [] => s end in
  match scan_once (S (length s)) (skip_ws s) with
  | Some (v, rest) => match skip_ws rest with [] => Some v | _ => None end
  | None => None
  end.

End Decoder.

(** ** A scripted runtime

    Concrete collaborators, to run the gateway on the scenarios of the
    specification: a fixed answer per request, a fixed set of files, one
    scripted process result, and a clock given by the number of readings
    made so far.  Bodies are decoded by [loads]; the message of a decoding
    error is the one [json] gives for a document that does not start with a
    value. *)

Definition pad (width : nat) (z : Z) : pystr :=
  let ds := str_of_Z z in
  repeat 48%N (width - length ds)%nat ++ ds.

(** [datetime.isoformat] of an aware UTC datetime given in microseconds since
    the epoch (proleptic Gregorian calendar). *)
Definition isoformat_utc (t : Z) : pystr :=
  let us := t mod 1000000 in
  let secs := t / 1000000 in
  let days := secs / 86400 in
  let sod := secs mod 86400 in
  let z := days + 719468 in
  let era := z / 146097 in
  let doe := z - era * 146097 in
  let yoe := (doe - doe / 1460 + doe / 36524 - doe / 146096) / 365 in
  let doy := doe - (365 * yoe + yoe / 4 - yoe / 100) in
  let mp := (5 * doy + 2) / 153 in
  let d := doy - (153 * mp + 2) / 5 + 1 in
  let m := if mp <? 10 then mp + 3 else mp - 9 in
  let y := yoe + era * 400 + (if m <=? 2 then 1 else 0) in
  pad 4 y ++ str "-" ++ pad 2 m ++ str "-" ++ pad 2 d ++ str "T"
  ++ pad 2 (sod / 3600) ++ str ":" ++ pad 2 (sod mod 3600 / 60) ++ str ":" ++ pad 2 (sod mod 60)
  ++ (if us =? 0 then [] else str "." ++ pad 6 us) ++ str "+00:00".

Fixpoint render_path (p : Path) : pystr :=
  match p with
  | PathOf s => s
  | PathDiv q s => render_path q ++ str "/" ++ s
  end.

Fixpoint clock_reads (tr : trace) : nat :=
  match tr with
  | [] => O
  | ClockRead :: t => S (clock_reads t)
  | _ :: t => clock_reads t
  end.

(** A code point of the surrogate range, which UTF-8 cannot encode. *)
Definition is_surrogate (c : N) : bool := ((55296 <=? c) && (c <=? 57343))%N.

Definition encodable (s : pystr) : bool := forallb (fun c => negb (is_surrogate c)) s.

(** A value [json.dumps(v, allow_nan=False).encode("utf-8")] accepts: no NaN
    or infinite number and no surrogate in a string or key. *)
Fixpoint renderable (v : json) : bool :=
  match v with
  | JFloat f => PrimFloat.is_finite f
  | JStr s => encodable s
  | JList l => forallb renderable l
  | JDict d => map_fold (fun k v acc => encodable k && renderable v && acc) true d
  | _ => true
  end.

Definition scripted (net : request -> pystr + response) (files : pystr -> option pystr)
    (proc : option CompletedProcess) (clock : nat -> Z) : Runtime :=
  {| client_request := fun _ r =>
       match net r with
       | inl e => inl (RequestError e)
       | inr resp => inr resp
       end;
     json_loads := fun s =>
       match loads (fun _ => 0%float) s with
       | Some v => inr v
       | None => inl (str "Expecting value: line 1 column 1 (char 0)")
       end;
     path_exists := fun _ p => Some (bool_decide (is_Some (files (render_path p))));
     read_text := fun _ p => files (render_path p);
     mkdir := fun _ _ => true;
     utcnow := fun tr => clock (clock_reads tr);
     isoformat := isoformat_utc;
     subprocess_run := fun _ _ _ => proc;
     path_str := render_path;
     sys_executable := str "/usr/bin/python3";
     py_repr := fun _ => [];
     json_renders := renderable |}.

(** A deployment with every upstream and key configured. *)
Definition sample_environ (name : pystr) : option pystr :=
  if pystr_eqb name (str "CAIA_REGISTRY_URL") then Some (str "http://registry:8001/")
  else if pystr_eqb name (str "CAIA_REGISTRY_API_KEY") then Some (str "reg-key")
  else if pystr_eqb name (str "CAIA_ARTIFACT_CACHE_URL") then Some (str "http://cache:8002")
  else if pystr_eqb name (str "CAIA_ONYX_API_URL") then Some (str "http://onyx:8000")
  else if pystr_eqb name (str "CAIA_ONYX_API_KEY") then Some (str "onyx-key")
  else None.

Definition sample_config : Config :=
  load_config sample_environ (PathOf (str "/srv/eval")) (PathOf (str "/srv/runs")).

(** The same deployment with the inference URL set to a lone slash, which
    [_clean_base_url] turns into the empty string. *)
Definition no_onyx_config : Config :=
  load_config
    (fun name => if pystr_eqb name (str "CAIA_ONYX_API_URL") then Some (str "/")
                 else sample_environ name)
    (PathOf (str "/srv/eval")) (PathOf (str "/srv/runs")).

Definition runner_installed (p : pystr) : option pystr :=
  if pystr_eqb p (str "/srv/eval/caiatech_eval_service/runner.py") then Some [] else None.

(** 2024-01-01T00:00:00Z, then one second later at each reading. *)
Definition ticking_clock (n : nat) : Z := (1704067200 + Z.of_nat n) * 1000000.

(** ** Vocabulary of the statements *)

(** The request [_request_upstream] issues for its arguments. *)
Definition upstream_request (base_url method path : pystr) (params json_body : json)
    (headers : gmap pystr pystr) : request :=
  {| req_method := method; req_url := base_url ++ path; req_params := params;
     req_json := json_body; req_headers := headers |}.


Definition is_uncaught {A} (o : outcome A) : bool :=
  match o with
  | Uncaught _ => true
  | _ => false
  end.

(** The validation error of [run_eval] for an unusable [inference_url]. *)
Definition inference_url_required : HTTPException :=
  {| exc_status := 400; exc_detail := JStr (str "inference_url is required") |}.

(** The effects of [run_eval] up to the spawn: the runner is looked for, the
    runs directory is made. *)
Definition before_clock {cfg : Config} (tr : trace) : trace :=
  tr ++ [PathExists runner_path; Mkdir EVAL_RUNS_DIR].

(** An invocation of [run_eval] on the object [b] from the trace [tr] that
    reaches the process: the request is valid, with suite [raw_suite] and
    inference URL [url]; the runner is installed and the runs directory can
    be made; the registry key is [key]; and the process spawned with the
    command [cmd] returns [proc]. *)
Definition process_ran {cfg : Config} {rt : Runtime} (b : dict) (tr : trace)
    (raw_suite url key : pystr) (cmd : list pystr) (proc : CompletedProcess) : Prop :=
  is_int (dict_get b (str "model_id")) = true
  /\ dict_get b (str "suite") = JStr raw_suite
  /\ existsb (pystr_eqb (strip raw_suite)) SUITES = true
  /\ py_or (dict_get b (str "inference_url")) (JStr _default_inference_url) = JStr url
  /\ is_nonblank_str (JStr url) = true
  /\ path_exists tr runner_path = Some true
  /\ mkdir (tr ++ [PathExists runner_path]) EVAL_RUNS_DIR = true
  /\ REGISTRY_API_KEY = Some key /\ key <> []
  /\ cmd = eval_command key (strip raw_suite) (dict_get b (str "model_id")) url b
  /\ subprocess_run (before_clock tr ++ [ClockRead]) cmd (path_str EVAL_SERVICE_DIR)
     = Some proc.

(** The trace once the process has returned. *)
Definition after_spawn {cfg : Config} {rt : Runtime} (tr : trace) (cmd : list pystr) : trace :=
  before_clock tr ++ [ClockRead; Spawn cmd (path_str EVAL_SERVICE_DIR)].

(** The error of [_safe_run_id] for an identifier with a separator. *)
Definition invalid_run_id : HTTPException :=
  {| exc_status := 400; exc_detail := JStr (str "Invalid eval_run_id") |}.

(** ** Scenarios *)

(** The text of a body, written with ['] where the body has a double quote. *)
Definition body (s : string) : pystr :=
  map (fun c => if (c =? 39)%N then 34%N else c) (str s).

(** The registry answers 404 with a JSON body. *)
Definition registry_404 : Runtime :=
  scripted (fun _ => inr {| status_code := 404;
                            text := body "{'detail': 'no such model'}" |})
           (fun _ => None) None ticking_clock.

(** The registry answers 204, without a body. *)
Definition registry_204 : Runtime :=
  scripted (fun _ => inr {| status_code := 204; text := [] |})
           (fun _ => None) None ticking_clock.

(** The inference API answers 200 with an empty body. *)
Definition onyx_empty_200 : Runtime :=
  scripted (fun _ => inr {| status_code := 200; text := [] |})
           (fun _ => None) None ticking_clock.

(** A network that answers by URL, and refuses every other connection. *)
Fixpoint answers (table : list (pystr * response)) (r : request) : pystr + response :=
  match table with
  | [] => inl (str "All connection attempts failed")
  | (url, resp) :: rest => if pystr_eqb url (req_url r) then inr resp else answers rest r
  end.

Definition ok_json (s : string) : response := {| status_code := 200; text := body s |}.

(** The registry holds model 7, described by the JSON text [model]; the
    artifact cache resolves anything. *)
Definition registry_with_model (model : string) : Runtime :=
  scripted
    (answers [(str "http://registry:8001/models/7", ok_json model);
              (str "http://cache:8002/resolve", ok_json "{'local_path': '/cache/ab12'}")])
    (fun _ => None) None ticking_clock.

(** Model 7 as the registry returns it in three scenarios: a remote
    checkpoint with checksum and size, one without a checksum, and a
    checkpoint in a store the gateway does not know. *)
Definition remote_model : dict :=
  dict_of [(str "artifact_uri", JStr (str "s3://models/ckpt.pt"));
           (str "checkpoint_sha256", JStr (str "ab12"));
           (str "checkpoint_size_bytes", JInt 1024)].

Definition remote_model_text : string :=
  "{'artifact_uri': 's3://models/ckpt.pt', 'checkpoint_sha256': 'ab12', 'checkpoint_size_bytes': 1024}".

Definition unchecked_model : dict :=
  dict_of [(str "artifact_uri", JStr (str "s3://models/ckpt.pt"));
           (str "checkpoint_size_bytes", JInt 1024)].

Definition unchecked_model_text : string :=
  "{'artifact_uri': 's3://models/ckpt.pt', 'checkpoint_size_bytes': 1024}".

Definition gcs_model : dict :=
  dict_of [(str "artifact_uri", JStr (str "gs://models/ckpt.pt"))].

Definition gcs_model_text : string := "{'artifact_uri': 'gs://models/ckpt.pt'}".

(** The registry fetch of model 7 in these scenarios. *)
Definition model_fetch : trace :=
  [HttpCall (upstream_request (str "http://registry:8001") (str "GET") (str "/models/7")
               JNull JNull {[ str "X-API-Key" := str "reg-key" ]})].

(** An evaluation request for the smoke suite, without [inference_url]. *)
Definition smoke_request : dict :=
  dict_of [(str "model_id", JInt 7); (str "suite", JStr (str "smoke-v1"))].

(** A deployment where the runner is installed and the process returns [proc]. *)
Definition eval_runtime (proc : CompletedProcess) (clock : nat -> Z) : Runtime :=
  scripted (answers []) runner_installed (Some proc) clock.

(** The process fails: exit code 1, and one line on stderr. *)
Definition failed_run : CompletedProcess :=
  {| returncode := 1; stdout := []; stderr := str "model not found" ++ [10%N] |}.

(** The process succeeds and prints its result. *)
Definition good_run : CompletedProcess :=
  {| returncode := 0;
     stdout := body "{'eval_run_id': 'run-42', 'accuracy': 1}" ++ [10%N];
     stderr := [] |}.

Definition good_run_fields : dict :=
  dict_of [(str "eval_run_id", JStr (str "run-42")); (str "accuracy", JInt 1)].

(** The process succeeds and prints a [started_at] of its own. *)
Definition restamped_run : CompletedProcess :=
  {| returncode := 0;
     stdout := body "{'eval_run_id': 'run-42', 'started_at': 'yesterday'}";
     stderr := [] |}.

(** A wall clock that is set back five seconds after its first reading. *)
Definition clock_set_back (n : nat) : Z :=
  match n with
  | O => (1704067200 + 5) * 1000000
  | S _ => 1704067200 * 1000000
  end.

(** The command line of the smoke request under [sample_config], for a given
    inference URL. *)
Definition smoke_command (inference_url : string) : list pystr :=
  [str "/usr/bin/python3"; str "-m"; str "caiatech_eval_service.runner";
   str "--registry-url"; str "http://registry:8001";
   str "--api-key"; str "reg-key";
   str "--suite"; str "smoke-v1";
   str "--model-id"; str "7";
   str "--inference-url"; str inference_url;
   str "--eval-runs-dir"; str "/srv/runs"].

(** A chat request that asks for streaming. *)
Definition streaming_chat : dict :=
  dict_of [(str "prompt", JStr (str "hello")); (str "stream", JBool true)].

(** ** The remaining handlers *)

(** *** Allowed origins (server.py, lines 15-19 and 41-48) *)

(** [s.split(sep)] for a separator of one character. *)
Fixpoint split_on (sep : N) (s : pystr) : list pystr :=
  match s with
  | [] => [[]]
  | c :: t =>
      if (c =? sep)%N then [] :: split_on sep t
      else
        match split_on sep t with
        | w :: ws => (c :: w) :: ws
        | [] => [[c]]
        end
  end.

(** [sep.join(parts)] for a separator of one character. *)
Fixpoint join_with (sep : N) (parts : list pystr) : pystr :=
  match parts with
  | [] => []
  | [w] => w
  | w :: rest => w ++ sep :: join_with sep rest
  end.

Definition _env_csv (environ : pystr -> option pystr) (name : pystr) : list pystr :=
  match environ name with
  | None => []
  | Some raw =>
      flat_map (fun part => match strip part with [] => [] | w => [w] end)
               (split_on 44%N raw)
  end.

Definition CORS_ORIGINS (environ : pystr -> option pystr) : list pystr :=
  match _env_csv environ (str "CAIA_DASHBOARD_CORS_ORIGINS") with
  | [] => [str "http://localhost:5173"; str "http://127.0.0.1:5173";
           str "http://localhost:3000"; str "http://127.0.0.1:3000"]
  | origins => origins
  end.

Section Handlers.
Context {cfg : Config} {rt : Runtime}.

(** *** Registry pass-through (server.py, lines 214-276) *)

(** [if v: params[name] = v] for an optional query parameter. *)
Definition add_param (name : pystr) (v : option pystr) (params : dict) : dict :=
  match v with
  | Some (c :: s) => <[name := JStr (c :: s)]> params
  | _ => params
  end.

Definition stats : M json :=
  _registry_request (str "GET") (str "/stats") JNull JNull true.

Definition list_models_params (status name q tag : option pystr) (limit offset : Z)
    (sort order : pystr) : dict :=
  add_param (str "tag") tag
    (add_param (str "q") q
       (add_param (str "name") name
          (add_param (str "status") status
             (dict_of [(str "limit", JInt limit); (str "offset", JInt offset);
                       (str "sort", JStr sort); (str "order", JStr order)])))).

Definition list_models (status name q tag : option pystr) (limit offset : Z)
    (sort order : pystr) : M json :=
  _registry_request (str "GET") (str "/models")
    (JDict (list_models_params status name q tag limit offset sort order)) JNull true.

Definition get_model (model_id : Z) : M json :=
  _registry_request (str "GET") (str "/models/" ++ str_of_Z model_id) JNull JNull true.

Definition get_model_metrics (model_id : Z) (suite : option pystr) : M json :=
  _registry_request (str "GET") (str "/models/" ++ str_of_Z model_id ++ str "/metrics")
    (JDict (add_param (str "suite") suite ∅)) JNull true.

Definition get_model_events (model_id limit offset : Z) : M json :=
  _registry_request (str "GET") (str "/models/" ++ str_of_Z model_id ++ str "/events")
    (JDict (dict_of [(str "limit", JInt limit); (str "offset", JInt offset)])) JNull true.

Definition promote_model (model_id : Z) (to_status : pystr) : M json :=
  _registry_request (str "POST") (str "/models/" ++ str_of_Z model_id ++ str "/promote")
    (JDict (dict_of [(str "to_status", JStr to_status)])) JNull true.

(** *** Artifact cache and inference health (server.py, lines 291-299, 374-393) *)

Definition artifact_health : M json :=
  _request_upstream (str "artifact-cache-service") ARTIFACT_CACHE_URL
    (str "GET") (str "/health") JNull JNull _artifact_cache_headers.

Definition onyx_health : M json :=
  _request_upstream (str "onyx-api") ONYX_API_URL
    (str "GET") (str "/health") JNull JNull _onyx_headers.

Definition onyx_models_loaded : M json :=
  _request_upstream (str "onyx-api") ONYX_API_URL
    (str "GET") (str "/models_loaded") JNull JNull _onyx_headers.

(** *** Listing the evaluation runs (server.py, lines 440-455) *)

(** [sorted(EVAL_RUNS_DIR.glob("*_summary.json"), key=mtime, reverse=True)]:
    the summaries, newest first; [None] when the listing raises. *)
Variable newest_summaries : trace -> option (list Path).

(** [l[:limit]] *)
Definition py_prefix {A} (limit : Z) (l : list A) : list A :=
  if 0 <=? limit then take (Z.to_nat limit) l
  else take (length l - Z.to_nat (- limit)) l.

(** [obj.setdefault(k, v)] on a copy of [obj]. *)
Definition setdefault (obj : dict) (k : pystr) (v : json) : dict :=
  match obj !! k with
  | Some _ => obj
  | None => <[k := v]> obj
  end.

(** The loop over the summaries: a file that cannot be read or decoded, or
    that holds no object, is skipped. *)
Fixpoint read_summaries (paths : list Path) : M (list json) :=
  match paths with
  | [] => ret []
  | p :: rest =>
      data <- effect (ReadText p) (fun tr => read_text tr p) ;;
      match data with
      | Some t =>
          match json_loads t with
          | inr (JDict obj) =>
              out <- read_summaries rest ;;
              ret (JDict (setdefault obj (str "summary_path") (JStr (path_str p))) :: out)
          | _ => read_summaries rest
          end
      | None => read_summaries rest
      end
  end.

Definition list_eval_runs (limit : Z) : M (list json) :=
  do make_runs_dir ;;
  found <- (fun tr => (Ok (newest_summaries tr), tr)) ;;
  match found with
  | Some summaries => read_summaries (py_prefix limit summaries)
  | None => crash (str "OSError")
  end.

End Handlers.

(** ** Further scenarios *)

(** No upstream answers. *)
Definition network_down : Runtime :=
  scripted (answers []) (fun _ => None) None ticking_clock.




(** The inference API answers 200 with a JSON list. *)
Definition onyx_models : Runtime :=
  scripted (fun _ => inr (ok_json "['onyx-7b']")) (fun _ => None) None ticking_clock.

(** The deployment of [sample_config] with a blank registry key. *)
Definition keyless_config : Config :=
  load_config
    (fun name => if pystr_eqb name (str "CAIA_REGISTRY_API_KEY") then Some (str "  ")
                 else sample_environ name)
    (PathOf (str "/srv/eval")) (PathOf (str "/srv/runs")).

(** The deployment of [sample_config] without the artifact cache. *)
Definition no_cache_config : Config :=
  load_config
    (fun name => if pystr_eqb name (str "CAIA_ARTIFACT_CACHE_URL") then Some (str " / ")
                 else sample_environ name)
    (PathOf (str "/srv/eval")) (PathOf (str "/srv/runs")).



(** Model 7 without a checkpoint location. *)
Definition unplaced_model : dict := dict_of [(str "name", JStr (str "onyx-7b"))].

Definition unplaced_model_text : string := "{'name': 'onyx-7b'}".

(** The files of one finished run, and a summary that is not JSON. *)
Definition run_files (p : pystr) : option pystr :=
  if pystr_eqb p (str "/srv/runs/run-42_summary.json")
  then Some (body "{'eval_run_id': 'run-42', 'accuracy': 1}")
  else if pystr_eqb p (str "/srv/runs/run-42.jsonl") then Some (body "{'item': 1}")
  else if pystr_eqb p (str "/srv/runs/broken_summary.json") then Some (str "not json")
  else None.

Definition runs_on_disk : Runtime := scripted (answers []) run_files None ticking_clock.

(** A run whose summary holds a NaN, as [json.dumps] writes one. *)
Definition diverged_run_text : string := "{'eval_run_id': 'run-43', 'loss': NaN}".

Definition diverged_run_fields : dict :=
  dict_of [(str "eval_run_id", JStr (str "run-43")); (str "loss", JFloat nan)].

Definition diverged_run_on_disk : Runtime :=
  scripted (answers [])
    (fun p => if pystr_eqb p (str "/srv/runs/run-43_summary.json")
              then Some (body diverged_run_text) else None)
    None ticking_clock.

(** The listing of the runs directory, newest first. *)
Definition two_summaries (_ : trace) : option (list Path) :=
  Some [PathDiv (PathOf (str "/srv/runs")) (str "broken_summary.json");
        PathDiv (PathOf (str "/srv/runs")) (str "run-42_summary.json")].

(** An evaluation request for a suite that does not exist. *)
Definition bogus_request : dict :=
  dict_of [(str "model_id", JInt 7); (str "suite", JStr (str "bogus"))].

(** The smoke request with a field the gateway does not know. *)
Definition annotated_request : dict := <[str "note" := JStr (str "nightly")]> smoke_request.

(** The process exits 0 and prints a traceback. *)
Definition garbled_run : CompletedProcess :=
  {| returncode := 0; stdout := str "Traceback (most recent call last):"; stderr := [] |}.

(** The process exits 0 and prints an object without a run identifier. *)
Definition anonymous_run : CompletedProcess :=
  {| returncode := 0; stdout := body "{'status': 'ok'}"; stderr := [] |}.

(** A deployment where the runner is not installed. *)
Definition runner_absent : Runtime :=
  scripted (answers []) (fun _ => None) (Some good_run) ticking_clock.

(** ** Vocabulary of the further statements *)

(** The request of one probe of [/health]: none when the upstream has no
    base URL, else a bare [GET /health]. *)
Definition health_probe_call (base_url : pystr) : trace :=
  match base_url with
  | [] => []
  | _ => [HttpCall (upstream_request base_url (str "GET") (str "/health") JNull JNull ∅)]
  end.

(** The error of an upstream without a base URL. *)
Definition not_configured (upstream : string) : HTTPException :=
  {| exc_status := 503; exc_detail := JStr (str upstream ++ str " base URL not configured") |}.

(** The error of a registry call without an API key. *)
Definition registry_key_missing : HTTPException :=
  {| exc_status := 503;
     exc_detail := JStr (str "CAIA_REGISTRY_API_KEY not set for dashboard API") |}.

(** The request of a keyed registry call. *)
Definition registry_call {cfg : Config} (key method path : pystr) (params : json) : event :=
  HttpCall (upstream_request REGISTRY_URL method path params JNull
              {[ str "X-API-Key" := key ]}).

(** * Properties *)

(** Two outcomes that differ once their literals are evaluated. *)
Ltac differs :=
  let H := fresh "H" in
  cbn [fst]; intros H; vm_compute in H; discriminate H.

(** The facts of a scripted scenario hold by evaluation. *)
Ltac by_evaluation :=
  first [ vm_compute; reflexivity | vm_compute; discriminate | vm_compute; lia ].

(** An outcome that is not an error of status 400. *)
Ltac wrong_status :=
  let H := fresh "H" in
  let Hs := fresh "Hs" in
  intros H Hs; unfold raise, crash in H; cbn [fst] in H;
  first [ discriminate H
        | injection H as <-; cbn [exc_status] in Hs; discriminate Hs ].

(** A trace that run_eval left without spawning anything. *)
Ltac no_spawn H :=
  exfalso; unfold raise, crash in H; cbn [snd] in H;
  repeat rewrite <- app_assoc in H;
  first [ rewrite drop_app_length in H | rewrite drop_all in H ];
  cbn in H; intuition discriminate.

(** A string that is none of a list of literals. *)
Ltac not_among := vm_compute; intuition discriminate.

Ltac scenario :=
  unfold process_ran; repeat apply conj; by_evaluation.

(** ** Strings *)

Lemma pystr_eqb_eq a b : pystr_eqb a b = true <-> a = b.
Proof.
  revert b. induction a as [|x a IH]; intros [|y b]; simpl; try (split; congruence).
  rewrite andb_true_iff, N.eqb_eq, IH. split.
  - intros [-> ->]. reflexivity.
  - intros [= -> ->]. split; reflexivity.
Qed.

Lemma contains_char_In c s : contains [c] s = true <-> In c s.
Proof.
  induction s as [|x s IH]; simpl.
  - split; [discriminate | tauto].
  - rewrite orb_true_iff, IH, andb_true_r, N.eqb_eq. split.
    + intros [-> | Hin]; auto.
    + intros [-> | Hin]; auto.
Qed.

Lemma In_lstrip_by p c s : In c s -> p c = false -> In c (lstrip_by p s).
Proof.
  intros Hin Hp. induction s as [|x s IH]; simpl in *; [tauto|].
  destruct (p x) eqn:Hx; [|exact Hin].
  destruct Hin as [-> | Hin]; [congruence | auto].
Qed.

Lemma In_rstrip_by p c s : In c s -> p c = false -> In c (rstrip_by p s).
Proof.
  intros Hin Hp. induction s as [|x s IH]; simpl in *; [tauto|].
  destruct Hin as [-> | Hin].
  - destruct (rstrip_by p s); [rewrite Hp|]; simpl; auto.
  - specialize (IH Hin). destruct (rstrip_by p s); [destruct IH|]. simpl. auto.
Qed.

Lemma In_strip c s : In c s -> is_whitespace c = false -> In c (strip s).
Proof.
  intros Hin Hc. unfold strip. apply In_lstrip_by; [|exact Hc].
  apply In_rstrip_by; assumption.
Qed.

(** A prefix that ends in a character that is not stripped stays in place. *)
Lemma rstrip_by_app p a c s :
  p c = false -> rstrip_by p (a ++ c :: s) = a ++ c :: rstrip_by p s.
Proof.
  intros Hc. induction a as [|x a IH]; simpl.
  - destruct (rstrip_by p s); [rewrite Hc|]; reflexivity.
  - rewrite IH. destruct a; reflexivity.
Qed.

Lemma startswith_app p s : startswith p s = true <-> exists t, s = p ++ t.
Proof.
  revert s. induction p as [|x p IH]; intros s; simpl.
  - split; eauto.
  - destruct s as [|y s].
    + split; [discriminate | intros [t [=]]].
    + rewrite andb_true_iff, N.eqb_eq, IH. split.
      * intros [-> [t ->]]. eauto.
      * intros [t [= -> ->]]. eauto.
Qed.

(** [s.strip()] keeps a prefix that starts and ends with characters that are
    not white space: if [s] starts with [s3://], so does [s.strip()]. *)
Lemma startswith_strip c p d s :
  is_whitespace c = false -> is_whitespace d = false ->
  startswith (c :: p ++ [d]) s = true -> startswith (c :: p ++ [d]) (strip s) = true.
Proof.
  intros Hc Hd [t ->]%startswith_app. apply startswith_app.
  exists (rstrip_by is_whitespace t). unfold strip.
  replace ((c :: p ++ [d]) ++ t) with ((c :: p) ++ d :: t)
    by (simpl; rewrite <- app_assoc; reflexivity).
  rewrite rstrip_by_app by exact Hd. simpl. rewrite Hc.
  rewrite <- app_assoc. reflexivity.
Qed.

Lemma s3_prefix_survives_strip (raw : pystr) :
  startswith (str "s3://") raw = true -> startswith (str "s3://") (strip raw) = true.
Proof.
  apply (startswith_strip 115%N [51%N; 58%N; 47%N] 47%N); reflexivity.
Qed.

(** ** The upstream client *)

Section UpstreamClient.
Context {rt : Runtime}.
Variables (upstream base_url method path : pystr) (params json_body : json).
Variable headers : gmap pystr pystr.
Variable tr : trace.

#[local] Abbreviation req :=
  (upstream_request base_url method path params json_body headers).

(** The client issues exactly one request when the base URL is configured,
    and none otherwise. *)
Lemma request_upstream_trace :
  (_request_upstream upstream base_url method path params json_body headers tr).2 =
  match base_url with
  | [] => tr
  | _ => tr ++ [HttpCall req]
  end.
Proof.
  unfold _request_upstream, bind, effect, raise, crash, ret.
  destruct base_url; [reflexivity|].
  simpl. destruct (client_request tr _) as [[e|w]|resp]; [reflexivity | reflexivity |].
  destruct (400 <=? status_code resp); [reflexivity|].
  destruct (status_code resp =? 204); [reflexivity|].
  destruct (json_loads (text resp)); reflexivity.
Qed.

(** The only exception other than [HTTPException] that leaves the client is
    one [client.request] raised and that is not an [httpx.RequestError]. *)
Lemma request_upstream_uncaught (what : pystr) :
  (_request_upstream upstream base_url method path params json_body headers tr).1
  = Uncaught what ->
  base_url <> [] /\ client_request tr req = inl (OtherException what).
Proof.
  unfold _request_upstream, bind, effect, raise, crash, ret, upstream_request.
  destruct base_url; [discriminate|].
  simpl. destruct (client_request tr _) as [[e|w]|resp].
  - discriminate.
  - intros [= ->]. split; [discriminate | reflexivity].
  - destruct (400 <=? status_code resp); [discriminate|].
    destruct (status_code resp =? 204); [discriminate|].
    destruct (json_loads (text resp)); discriminate.
Qed.

(** C1: when the upstream answers with a status of 400 or more, the client
    raises an error with that same status whose detail names the upstream
    and carries, under [error], the decoded JSON body when the body decodes,
    and [{"detail": text}] otherwise. *)
Theorem upstream_error_status_preserved (resp : response) :
  base_url <> [] ->
  client_request tr req = inr resp ->
  400 <= status_code resp ->
  _request_upstream upstream base_url method path params json_body headers tr =
  (Raise {| exc_status := status_code resp;
            exc_detail :=
              JDict (dict_of
                [(str "upstream", JStr upstream);
                 (str "error",
                  match json_loads (text resp) with
                  | inr body => body
                  | inl _ => JDict (dict_of [(str "detail", JStr (text resp))])
                  end)]) |},
   tr ++ [HttpCall req]).
Proof.
  intros Hbase Hresp Hstatus.
  unfold _request_upstream, bind, effect, raise.
  unfold upstream_request in Hresp.
  destruct base_url as [|c b]; [congruence|].
  simpl in Hresp |- *. rewrite Hresp.
  apply Z.leb_le in Hstatus. rewrite Hstatus. reflexivity.
Qed.

(** C3 (amended): a response with status 204 yields the value "no content"
    ([None]); a response with any other status below 400 whose body is empty
    -- the decoder rejects the empty document -- is not a success: the client
    raises a 502 "returned invalid JSON" error. *)
Theorem no_content_only_for_204 (resp : response) :
  base_url <> [] ->
  client_request tr req = inr resp ->
  (status_code resp = 204 ->
   _request_upstream upstream base_url method path params json_body headers tr =
   (Ok JNull, tr ++ [HttpCall req]))
  /\
  (forall msg,
     status_code resp < 400 -> status_code resp <> 204 ->
     text resp = [] -> json_loads [] = inl msg ->
     _request_upstream upstream base_url method path params json_body headers tr =
     (Raise {| exc_status := 502;
               exc_detail := JStr (upstream ++ str " returned invalid JSON: " ++ msg) |},
      tr ++ [HttpCall req])).
Proof.
  intros Hbase Hresp.
  unfold _request_upstream, bind, effect, raise, ret.
  unfold upstream_request in Hresp.
  destruct base_url as [|c b]; [congruence|].
  simpl in Hresp |- *. rewrite Hresp. split.
  - intros ->. reflexivity.
  - intros msg Hlt Hne Hempty Hdec.
    destruct (Z.leb_spec 400 (status_code resp)) as [Hge|_]; [lia|].
    destruct (Z.eqb_spec (status_code resp) 204) as [Heq|_]; [congruence|].
    rewrite Hempty, Hdec. reflexivity.
Qed.

End UpstreamClient.

(** *** Scenarios of the upstream client *)

Lemma upstream_error_status_preserved_witness :
  _request_upstream (rt := registry_404) (str "model-registry") (str "http://registry:8001")
    (str "GET") (str "/models/7") JNull JNull ∅ [] =
  (Raise {| exc_status := 404;
            exc_detail :=
              JDict (dict_of
                [(str "upstream", JStr (str "model-registry"));
                 (str "error",
                  JDict (dict_of [(str "detail", JStr (str "no such model"))]))]) |},
   [HttpCall (upstream_request (str "http://registry:8001") (str "GET") (str "/models/7")
                JNull JNull ∅)]).
Proof.
  etransitivity.
  - apply (upstream_error_status_preserved (rt := registry_404))
      with (resp := {| status_code := 404; text := body "{'detail': 'no such model'}" |}).
    + vm_compute. discriminate.
    + reflexivity.
    + simpl. lia.
  - vm_compute. reflexivity.
Defined.

(** C3, as stated, fails: a 200 response with an empty body is an error for
    the caller, not the value "no content". *)
Lemma empty_body_200_is_an_error :
  _request_upstream (rt := onyx_empty_200) (str "onyx-api") (str "http://onyx:8000")
    (str "GET") (str "/health") JNull JNull ∅ [] =
  (Raise {| exc_status := 502;
            exc_detail :=
              JStr (str "onyx-api returned invalid JSON: Expecting value: line 1 column 1 (char 0)") |},
   [HttpCall (upstream_request (str "http://onyx:8000") (str "GET") (str "/health")
                JNull JNull ∅)])
  /\ (_request_upstream (rt := onyx_empty_200) (str "onyx-api") (str "http://onyx:8000")
        (str "GET") (str "/health") JNull JNull ∅ []).1 <> Ok JNull.
Proof.
  split.
  - vm_compute. reflexivity.
  - vm_compute. discriminate.
Qed.

Lemma no_content_only_for_204_witness :
  _request_upstream (rt := registry_204) (str "model-registry") (str "http://registry:8001")
    (str "POST") (str "/models/7/promote") JNull JNull ∅ [] =
  (Ok JNull,
   [] ++ [HttpCall (upstream_request (str "http://registry:8001") (str "POST")
                      (str "/models/7/promote") JNull JNull ∅)])
  /\
  _request_upstream (rt := onyx_empty_200) (str "onyx-api") (str "http://onyx:8000")
    (str "GET") (str "/health") JNull JNull ∅ [] =
  (Raise {| exc_status := 502;
            exc_detail :=
              JStr (str "onyx-api" ++ str " returned invalid JSON: "
                    ++ str "Expecting value: line 1 column 1 (char 0)") |},
   [] ++ [HttpCall (upstream_request (str "http://onyx:8000") (str "GET") (str "/health")
                      JNull JNull ∅)]).
Proof.
  split.
  - refine (proj1 (no_content_only_for_204 (rt := registry_204) (str "model-registry")
                     (str "http://registry:8001") (str "POST") (str "/models/7/promote")
                     JNull JNull ∅ [] {| status_code := 204; text := [] |} _ _) _).
    + vm_compute. discriminate.
    + reflexivity.
    + reflexivity.
  - refine (proj2 (no_content_only_for_204 (rt := onyx_empty_200) (str "onyx-api")
                     (str "http://onyx:8000") (str "GET") (str "/health") JNull JNull ∅ []
                     {| status_code := 200; text := [] |} _ _) _ _ _ _ _).
    + vm_compute. discriminate.
    + reflexivity.
    + simpl. lia.
    + simpl. lia.
    + reflexivity.
    + reflexivity.
Defined.

(** ** Run identifiers *)

Section RunFiles.
Context {cfg : Config} {rt : Runtime}.

Lemma safe_run_id_rejects (c : N) (raw : pystr) (tr : trace) :
  In c [47%N; 92%N; 0%N] -> In c raw ->
  _safe_run_id raw tr = (Raise invalid_run_id, tr).
Proof.
  intros Hsep Hin.
  assert (Hws : is_whitespace c = false).
  { simpl in Hsep. destruct Hsep as [<- | [<- | [<- | []]]]; reflexivity. }
  pose proof (In_strip c raw Hin Hws) as Hs.
  unfold _safe_run_id. destruct (strip raw) as [|x s] eqn:E; [destruct Hs|].
  replace (existsb _ _) with true; [reflexivity|].
  symmetry. apply existsb_exists. exists [c]. split.
  - simpl in Hsep |- *. destruct Hsep as [<- | [<- | [<- | []]]]; auto.
  - apply contains_char_In. exact Hs.
Qed.

(** C9: a run identifier that contains [/], a backslash or a null character
    is rejected by both file endpoints with a 400 error, and the trace of
    effects is unchanged: no path built from it is ever tested for existence
    or read. *)
Theorem run_id_with_separator_rejected (raw : pystr) (tr : trace) :
  contains (str "/") raw = true \/ contains (str "\") raw = true
  \/ contains [0%N] raw = true ->
  get_eval_summary raw tr = (Raise invalid_run_id, tr)
  /\ get_eval_jsonl raw tr = (Raise invalid_run_id, tr).
Proof.
  intros H.
  assert (Hc : exists c, In c [47%N; 92%N; 0%N] /\ In c raw).
  { change (str "/") with [47%N] in H. change (str "\") with [92%N] in H.
    destruct H as [H | [H | H]]; apply contains_char_In in H.
    - exists 47%N. simpl. auto.
    - exists 92%N. simpl. auto.
    - exists 0%N. simpl. auto. }
  destruct Hc as (c & Hsep & Hin).
  unfold get_eval_summary, get_eval_jsonl, bind.
  rewrite (safe_run_id_rejects c raw tr Hsep Hin). split; reflexivity.
Qed.

End RunFiles.

(** ** Inference pass-through *)

Section Onyx.
Context {cfg : Config} {rt : Runtime}.

(** C10: for a JSON-object body, the body forwarded to the inference
    upstream by [/api/onyx/generate] and [/api/onyx/chat] is the caller's
    body with [stream] set to [false]; every other key keeps its value. *)
Theorem onyx_forces_non_streaming (b : dict) (tr : trace) :
  ONYX_API_URL <> [] ->
  let forwarded : dict := <[str "stream" := JBool false]> b in
  (onyx_generate (JDict b) tr).2 =
    tr ++ [HttpCall (upstream_request ONYX_API_URL (str "POST") (str "/generate")
                       JNull (JDict forwarded) _onyx_headers)]
  /\ (onyx_chat (JDict b) tr).2 =
    tr ++ [HttpCall (upstream_request ONYX_API_URL (str "POST") (str "/chat")
                       JNull (JDict forwarded) _onyx_headers)]
  /\ forwarded !! str "stream" = Some (JBool false)
  /\ (forall k, k <> str "stream" -> forwarded !! k = b !! k).
Proof.
  intros Hurl forwarded. unfold onyx_generate, onyx_chat.
  rewrite !request_upstream_trace. simpl force_non_streaming.
  destruct ONYX_API_URL as [|c u] eqn:E; [congruence|].
  repeat split.
  - apply lookup_insert_eq.
  - intros k Hk. apply lookup_insert_ne. congruence.
Qed.

End Onyx.

(** ** Aggregate health *)

Section Health.
Context {cfg : Config} {rt : Runtime}.

Lemma registry_request_without_key method path params json_body tr :
  _registry_request method path params json_body false tr =
  _request_upstream (str "model-registry") REGISTRY_URL method path params json_body ∅ tr.
Proof. reflexivity. Qed.




End Health.

(** ** Checkpoint resolution *)

Section Checkpoint.
Context {cfg : Config} {rt : Runtime}.

Lemma missing_field_is_invalid (m : dict) (k : pystr) :
  m !! k = None ->
  is_nonblank_str (dict_get m k) = false /\ is_size (dict_get m k) = false.
Proof. intros H. unfold dict_get. rewrite H. split; reflexivity. Qed.

(** C2: for a model whose [artifact_uri] starts with [s3://] (after the
    gateway has trimmed it; see [s3_prefix_survives_strip]), a checksum that is
    missing -- or not a non-blank string -- or a size that is missing -- or
    not a non-negative integer -- makes the resolution fail with a 400 error
    and leaves the trace as the registry fetch left it: nothing is sent to
    the artifact cache.  When both are present the call made is
    [POST /resolve] with the body [{artifact_uri, sha256, size_bytes}]. *)
Theorem remote_artifact_requires_checksum_and_size
    (model_id : Z) (tr tr1 : trace) (m : dict) (raw_uri : pystr) :
  _registry_request (str "GET") (str "/models/" ++ str_of_Z model_id) JNull JNull true tr
    = (Ok (JDict m), tr1) ->
  dict_get m (str "artifact_uri") = JStr raw_uri ->
  startswith (str "s3://") (strip raw_uri) = true ->
  let sha256 := dict_get m (str "checkpoint_sha256") in
  let size_bytes := dict_get m (str "checkpoint_size_bytes") in
  let payload :=
    JDict (dict_of [(str "artifact_uri", JStr (strip raw_uri));
                    (str "sha256", sha256);
                    (str "size_bytes", JInt (int_value size_bytes))]) in
  (is_nonblank_str sha256 = false \/ is_size size_bytes = false ->
   exists detail,
     resolve_model_checkpoint model_id tr =
     (Raise {| exc_status := 400; exc_detail := detail |}, tr1))
  /\
  (is_nonblank_str sha256 = true -> is_size size_bytes = true ->
   resolve_model_checkpoint model_id tr = artifact_resolve payload tr1
   /\ (ARTIFACT_CACHE_URL <> [] ->
       (resolve_model_checkpoint model_id tr).2 =
       tr1 ++ [HttpCall (upstream_request ARTIFACT_CACHE_URL (str "POST") (str "/resolve")
                           JNull payload _artifact_cache_headers)])).
Proof.
  intros Hfetch Huri Hs3 sha256 size_bytes payload.
  assert (Hrun : resolve_model_checkpoint model_id tr =
                 (if negb (is_nonblank_str sha256) then
                    raise 400 (JStr (str "Remote artifact requires checkpoint_sha256"))
                  else if negb (is_size size_bytes) then
                    raise 400 (JStr (str "Remote artifact requires checkpoint_size_bytes"))
                  else artifact_resolve payload) tr1).
  { unfold resolve_model_checkpoint, bind. rewrite Hfetch, Huri.
    destruct (strip raw_uri) as [|c u] eqn:E; [discriminate|].
    rewrite Hs3. reflexivity. }
  rewrite Hrun. split.
  - intros [Hsha | Hsize].
    + rewrite Hsha. eexists. reflexivity.
    + rewrite Hsize. destruct (is_nonblank_str sha256); eexists; reflexivity.
  - intros Hsha Hsize. rewrite Hsha, Hsize. simpl. split; [reflexivity|].
    intros Hcache. unfold artifact_resolve. rewrite request_upstream_trace.
    destruct ARTIFACT_CACHE_URL; [congruence | reflexivity].
Qed.

(** C8: for a model whose (trimmed) [artifact_uri] starts with neither
    [s3://] nor [file://] and is not a bare path (it contains [://]), the
    resolution fails with the unsupported-scheme error, a 400, and the trace
    stays as the registry fetch left it: nothing is sent to the artifact
    cache. *)
Theorem unsupported_scheme_rejected
    (model_id : Z) (tr tr1 : trace) (m : dict) (raw_uri : pystr) :
  _registry_request (str "GET") (str "/models/" ++ str_of_Z model_id) JNull JNull true tr
    = (Ok (JDict m), tr1) ->
  dict_get m (str "artifact_uri") = JStr raw_uri ->
  startswith (str "s3://") (strip raw_uri) = false ->
  startswith (str "file://") (strip raw_uri) = false ->
  contains (str "://") (strip raw_uri) = true ->
  resolve_model_checkpoint model_id tr =
  (Raise {| exc_status := 400;
            exc_detail := JStr (str "Unsupported artifact_uri scheme for resolution: "
                                ++ strip raw_uri) |},
   tr1).
Proof.
  intros Hfetch Huri Hs3 Hfile Hscheme.
  unfold resolve_model_checkpoint, bind. rewrite Hfetch, Huri.
  destruct (strip raw_uri) as [|c u] eqn:E; [discriminate|].
  rewrite Hs3, Hfile, Hscheme. reflexivity.
Qed.

End Checkpoint.

(** ** Evaluation runs *)

Section EvalRun.
Context {cfg : Config} {rt : Runtime}.

Lemma eval_service_present_run (tr : trace) :
  _eval_service_present tr =
  (match path_exists tr runner_path with
   | Some present => Ok present
   | None => Uncaught (str "OSError")
   end,
   tr ++ [PathExists runner_path]).
Proof.
  unfold _eval_service_present, path_test, bind, effect.
  destruct (path_exists tr runner_path); reflexivity.
Qed.

(** A valid invocation runs the process and maps its result. *)
Lemma run_eval_process (b : dict) (tr : trace) (raw_suite url key : pystr)
    (cmd : list pystr) (proc : CompletedProcess) :
  process_ran b tr raw_suite url key cmd proc ->
  run_eval (JDict b) tr =
  eval_outcome (utc_stamp (utcnow (before_clock tr))) proc (after_spawn tr cmd).
Proof.
  intros (Hid & Hsuite & Hknown & Hurl & Hblank & Hrunner & Hmkdir & Hkey & Hne & -> & Hproc).
  unfold run_eval. rewrite Hid, Hsuite. cbn [negb]. cbv beta iota.
  destruct (strip raw_suite) as [|c s] eqn:E; [discriminate|].
  rewrite Hknown, Hurl, Hblank. cbn [negb]. cbv beta iota.
  unfold bind at 1. rewrite eval_service_present_run, Hrunner.
  cbn [negb]. cbv beta iota.
  unfold bind at 1. unfold make_runs_dir, bind at 1, effect at 1. rewrite Hmkdir.
  unfold ret at 1.
  unfold bind at 1, _require_registry_key. rewrite Hkey.
  destruct key as [|k0 key']; [congruence|]. unfold ret at 1.
  unfold bind at 1, _now_utc_iso, effect at 1.
  unfold bind at 1, run_process, bind at 1, effect at 1.
  unfold before_clock in Hproc.
  repeat rewrite <- app_assoc in Hproc. repeat rewrite <- app_assoc.
  cbn [app] in Hproc |- *. rewrite Hproc. unfold ret at 1.
  unfold after_spawn, before_clock. repeat rewrite <- app_assoc. reflexivity.
Qed.

Lemma eval_outcome_trace (started_at : pystr) (proc : CompletedProcess) (t : trace) :
  (eval_outcome started_at proc t).2 = t
  \/ (eval_outcome started_at proc t).2 = t ++ [ClockRead].
Proof.
  unfold eval_outcome, bind, _now_utc_iso, effect, raise, ret.
  destruct (negb _); [left; reflexivity|].
  destruct (json_loads _) as [e|v]; [left; reflexivity|].
  destruct v; try (left; reflexivity).
  destruct (dict_get _ _); try (left; reflexivity). right. reflexivity.
Qed.

(** The hypothesis of the theorems below leaves no invocation out: whenever
    [run_eval] spawns a process, the request was valid and every process
    result it can get back makes [process_ran] hold. *)
Lemma process_ran_complete (b : dict) (tr : trace) (cmd : list pystr) (cwd : pystr) :
  In (Spawn cmd cwd) (drop (length tr) (run_eval (JDict b) tr).2) ->
  exists raw_suite url key,
    cwd = path_str EVAL_SERVICE_DIR
    /\ forall proc,
         subprocess_run (before_clock tr ++ [ClockRead]) cmd cwd = Some proc ->
         process_ran b tr raw_suite url key cmd proc.
Proof.
  intros Hin. unfold run_eval in Hin.
  destruct (is_int (dict_get b (str "model_id"))) eqn:Hid;
    cbn [negb] in Hin; cbv beta iota in Hin; [|no_spawn Hin].
  destruct (dict_get b (str "suite")) as [| | | |raw| |] eqn:Hsuite; try (no_spawn Hin).
  destruct (strip raw) as [|c s] eqn:E; [no_spawn Hin|].
  destruct (existsb (pystr_eqb (c :: s)) SUITES) eqn:Hknown;
    cbn [negb] in Hin; cbv beta iota in Hin; [|no_spawn Hin].
  destruct (py_or _ _) as [| | | |url| |] eqn:Hurl; try (no_spawn Hin).
  destruct (is_nonblank_str (JStr url)) eqn:Hblank;
    cbn [negb] in Hin; cbv beta iota in Hin; [|no_spawn Hin].
  unfold bind at 1 in Hin. rewrite eval_service_present_run in Hin.
  destruct (path_exists tr runner_path) as [[|]|] eqn:Hrunner;
    cbn [negb] in Hin; cbv beta iota in Hin; [|no_spawn Hin|no_spawn Hin].
  unfold bind at 1 in Hin. unfold make_runs_dir, bind at 1, effect at 1 in Hin.
  destruct (mkdir _ EVAL_RUNS_DIR) eqn:Hmkdir; [|no_spawn Hin].
  unfold ret at 1 in Hin. unfold bind at 1, _require_registry_key in Hin.
  destruct REGISTRY_API_KEY as [[|k0 key]|] eqn:Hkey; try (no_spawn Hin).
  unfold ret at 1 in Hin. unfold bind at 1, _now_utc_iso, effect at 1 in Hin.
  unfold bind at 1, run_process, bind at 1, effect at 1 in Hin.
  assert (Hspawn : cmd = eval_command (k0 :: key) (c :: s) (dict_get b (str "model_id")) url b
                   /\ cwd = path_str EVAL_SERVICE_DIR).
  { destruct (subprocess_run _ _ _) as [proc|]; unfold ret, crash in Hin.
    - destruct (eval_outcome_trace
                  (utc_stamp (utcnow ((tr ++ [PathExists runner_path]) ++ [Mkdir EVAL_RUNS_DIR])))
                  proc
                  ((((tr ++ [PathExists runner_path]) ++ [Mkdir EVAL_RUNS_DIR]) ++ [ClockRead])
                   ++ [Spawn (eval_command (k0 :: key) (c :: s)
                                (dict_get b (str "model_id")) url b)
                         (path_str EVAL_SERVICE_DIR)])) as [Ht | Ht];
        rewrite Ht in Hin; repeat rewrite <- app_assoc in Hin;
        rewrite drop_app_length in Hin; cbn in Hin;
        destruct Hin as [[=] | [[=] | [[=] | [Heq | Hrest]]]];
        try (injection Heq as <- <-; split; reflexivity);
        cbn in Hrest; intuition discriminate.
    - cbn [snd] in Hin. repeat rewrite <- app_assoc in Hin.
      rewrite drop_app_length in Hin. cbn in Hin.
      destruct Hin as [[=] | [[=] | [[=] | [Heq | []]]]].
      injection Heq as <- <-. split; reflexivity. }
  destruct Hspawn as [-> ->].
  exists raw, url, (k0 :: key). split; [reflexivity|].
  intros proc Hproc. unfold process_ran. rewrite E.
  repeat apply conj; try assumption; try reflexivity. discriminate.
Qed.

(** C4 (amended): when the evaluation process exits with a non-zero code,
    [run_eval] raises a 502 error whose detail holds that exit code and the
    captured stdout and stderr with the white space at both ends removed. *)
Theorem eval_failure_reports_process (b : dict) (tr : trace) (raw_suite url key : pystr)
    (cmd : list pystr) (proc : CompletedProcess) :
  process_ran b tr raw_suite url key cmd proc ->
  returncode proc <> 0 ->
  run_eval (JDict b) tr =
  (Raise {| exc_status := 502;
            exc_detail :=
              JDict (dict_of
                [(str "upstream", JStr (str "caiatech-eval-service"));
                 (str "returncode", JInt (returncode proc));
                 (str "stdout", JStr (strip (stdout proc)));
                 (str "stderr", JStr (strip (stderr proc)))]) |},
   after_spawn tr cmd).
Proof.
  intros Hran Hcode. rewrite (run_eval_process _ _ _ _ _ _ _ Hran).
  unfold eval_outcome. apply Z.eqb_neq in Hcode. rewrite Hcode. reflexivity.
Qed.

(** C5 (amended): when the process exits 0 and prints a JSON object with a
    string [eval_run_id], [run_eval] returns an object that holds that
    [eval_run_id] and every field the process printed other than
    [started_at] and [finished_at]; these two are the gateway's own stamps
    (strings, so not null), read from the clock right before the spawn and
    right after the process returned, and they replace fields of the same
    names printed by the process.  The stamps are ordered when the clock
    does not run backwards. *)
Theorem eval_success_is_stamped (b : dict) (tr : trace) (raw_suite url key : pystr)
    (cmd : list pystr) (proc : CompletedProcess) (emitted : dict) (run_id : pystr) :
  process_ran b tr raw_suite url key cmd proc ->
  returncode proc = 0 ->
  json_loads (strip (stdout proc)) = inr (JDict emitted) ->
  emitted !! str "eval_run_id" = Some (JStr run_id) ->
  let started := utcnow (before_clock tr) in
  let finished := utcnow (after_spawn tr cmd) in
  exists result : dict,
    run_eval (JDict b) tr = (Ok (JDict result), after_spawn tr cmd ++ [ClockRead])
    /\ result !! str "eval_run_id" = Some (JStr run_id)
    /\ (forall k, k <> str "started_at" -> k <> str "finished_at" ->
        result !! k = emitted !! k)
    /\ result !! str "started_at" = Some (JStr (utc_stamp started))
    /\ result !! str "finished_at" = Some (JStr (utc_stamp finished))
    /\ ((forall t t' : trace, utcnow t <= utcnow (t ++ t')) -> started <= finished).
Proof.
  intros Hran Hcode Hout Hid started finished.
  exists (<[str "finished_at" := JStr (utc_stamp finished)]>
            (<[str "started_at" := JStr (utc_stamp started)]> emitted)).
  split; [|split; [|split; [|split; [|split]]]].
  - rewrite (run_eval_process _ _ _ _ _ _ _ Hran).
    unfold eval_outcome. rewrite Hcode, Hout. simpl negb. cbv beta iota.
    unfold dict_get. rewrite Hid. reflexivity.
  - rewrite !lookup_insert_ne by (vm_compute; discriminate). exact Hid.
  - intros k Hs Hf. rewrite !lookup_insert_ne by congruence. reflexivity.
  - rewrite lookup_insert_ne by (vm_compute; discriminate). apply lookup_insert_eq.
  - apply lookup_insert_eq.
  - intros Hmono. unfold started, finished, after_spawn. apply Hmono.
Qed.

Lemma default_inference_url_nonempty : _default_inference_url <> [].
Proof.
  unfold _default_inference_url. destruct ONYX_API_URL; [vm_compute|]; discriminate.
Qed.

Lemma py_or_same (v : json) : py_or v v = v.
Proof. unfold py_or. destruct (truthy v); reflexivity. Qed.

Lemma dict_get_insert_ne (d : dict) (k k' : pystr) (v : json) :
  k <> k' -> dict_get (<[k := v]> d) k' = dict_get d k'.
Proof. intros H. unfold dict_get. rewrite lookup_insert_ne by exact H. reflexivity. Qed.

Lemma dict_get_insert_eq (d : dict) (k : pystr) (v : json) :
  dict_get (<[k := v]> d) k = v.
Proof. unfold dict_get. rewrite lookup_insert_eq. reflexivity. Qed.

Lemma tuning_flags_ignore_inference_url (b : dict) (v : json) :
  tuning_flags (<[str "inference_url" := v]> b) = tuning_flags b.
Proof.
  unfold tuning_flags, TUNING_KNOBS. cbn [flat_map fst snd].
  rewrite !dict_get_insert_ne by (vm_compute; discriminate). reflexivity.
Qed.

(** An outcome of the process is never the validation error of the request. *)
Lemma eval_outcome_not_validation (started_at : pystr) (proc : CompletedProcess) (tr : trace) :
  (eval_outcome started_at proc tr).1 <> Raise inference_url_required.
Proof.
  unfold eval_outcome, bind, _now_utc_iso, effect, raise, ret.
  destruct (negb (returncode proc =? 0)); [differs|].
  destruct (json_loads (strip (stdout proc))) as [e|v]; [differs|].
  destruct v; try differs.
  destruct (dict_get d (str "eval_run_id")); differs.
Qed.

(** C6 (amended): a request that omits [inference_url] is handled exactly as
    the same request with [inference_url] set to the default, which is the
    configured base URL of the inference upstream or, when that is empty,
    the built-in [http://127.0.0.1:8000]; with an empty configured URL the
    request therefore does not fail with the [inference_url] validation
    error. *)
Theorem omitted_inference_url_defaults (b : dict) (tr : trace) :
  b !! str "inference_url" = None ->
  (ONYX_API_URL <> [] -> _default_inference_url = ONYX_API_URL)
  /\ (ONYX_API_URL = [] -> _default_inference_url = str "http://127.0.0.1:8000")
  /\ run_eval (JDict b) tr =
     run_eval (JDict (<[str "inference_url" := JStr _default_inference_url]> b)) tr
  /\ (ONYX_API_URL = [] -> (run_eval (JDict b) tr).1 <> Raise inference_url_required).
Proof.
  intros Hnone.
  assert (Hget : dict_get b (str "inference_url") = JNull)
    by (unfold dict_get; rewrite Hnone; reflexivity).
  split; [|split; [|split]].
  - unfold _default_inference_url. destruct ONYX_API_URL; [congruence | reflexivity].
  - unfold _default_inference_url. intros ->. reflexivity.
  - unfold run_eval, eval_command.
    rewrite tuning_flags_ignore_inference_url.
    rewrite !dict_get_insert_ne by (vm_compute; discriminate).
    rewrite dict_get_insert_eq, Hget, py_or_same. reflexivity.
  - intros Hempty. unfold run_eval. rewrite Hget.
    unfold _default_inference_url. rewrite Hempty.
    change (py_or JNull (JStr (str "http://127.0.0.1:8000")))
      with (JStr (str "http://127.0.0.1:8000")).
    change (is_nonblank_str (JStr (str "http://127.0.0.1:8000"))) with true.
    cbn [negb]. cbv beta iota.
    destruct (negb (is_int (dict_get b (str "model_id")))); [differs|].
    destruct (dict_get b (str "suite")) as [| | | |raw| |]; try differs.
    destruct (strip raw) as [|c s]; [differs|].
    destruct (negb (existsb (pystr_eqb (c :: s)) SUITES)); [differs|].
    unfold bind at 1. rewrite eval_service_present_run.
    destruct (path_exists tr runner_path) as [[|]|];
      cbn [negb]; cbv beta iota; [|differs|differs].
    unfold bind at 1. unfold make_runs_dir, bind at 1, effect at 1.
    destruct (mkdir _ EVAL_RUNS_DIR); [|differs].
    unfold ret at 1. unfold bind at 1, _require_registry_key.
    destruct REGISTRY_API_KEY as [[|k0 key]|]; try differs.
    unfold ret at 1. unfold bind at 1, _now_utc_iso, effect at 1.
    unfold bind at 1, run_process, bind at 1, effect at 1.
    destruct (subprocess_run _ _ _) as [proc|]; [|differs].
    unfold ret at 1. apply eval_outcome_not_validation.
Qed.

End EvalRun.

(** ** The scenarios, run *)

(** *** Checkpoint resolution *)

Lemma remote_artifact_requires_checksum_and_size_witness :
  (exists detail,
     resolve_model_checkpoint (cfg := sample_config)
       (rt := registry_with_model unchecked_model_text) 7 [] =
     (Raise {| exc_status := 400; exc_detail := detail |}, model_fetch))
  /\
  (resolve_model_checkpoint (cfg := sample_config)
     (rt := registry_with_model remote_model_text) 7 []).2 =
  model_fetch ++
  [HttpCall (upstream_request (str "http://cache:8002") (str "POST") (str "/resolve") JNull
               (JDict (dict_of [(str "artifact_uri", JStr (str "s3://models/ckpt.pt"));
                                (str "sha256", JStr (str "ab12"));
                                (str "size_bytes", JInt 1024)]))
               ∅)].
Proof.
  split.
  - apply (remote_artifact_requires_checksum_and_size (cfg := sample_config)
             (rt := registry_with_model unchecked_model_text)
             7 [] model_fetch unchecked_model (str "s3://models/ckpt.pt"));
      [by_evaluation | by_evaluation | by_evaluation | left; by_evaluation].
  - etransitivity.
    + apply (remote_artifact_requires_checksum_and_size (cfg := sample_config)
               (rt := registry_with_model remote_model_text)
               7 [] model_fetch remote_model (str "s3://models/ckpt.pt"));
        by_evaluation.
    + by_evaluation.
Defined.

Lemma unsupported_scheme_rejected_witness :
  resolve_model_checkpoint (cfg := sample_config)
    (rt := registry_with_model gcs_model_text) 7 [] =
  (Raise {| exc_status := 400;
            exc_detail :=
              JStr (str "Unsupported artifact_uri scheme for resolution: "
                    ++ strip (str "gs://models/ckpt.pt")) |},
   model_fetch).
Proof.
  apply (unsupported_scheme_rejected (cfg := sample_config)
           (rt := registry_with_model gcs_model_text)
           7 [] model_fetch gcs_model (str "gs://models/ckpt.pt")); by_evaluation.
Defined.

(** *** Run identifiers *)

Lemma run_id_with_separator_rejected_witness :
  get_eval_summary (cfg := sample_config) (rt := eval_runtime good_run ticking_clock)
    (str "../secret") [] = (Raise invalid_run_id, [])
  /\ get_eval_jsonl (cfg := sample_config) (rt := eval_runtime good_run ticking_clock)
       (str "../secret") [] = (Raise invalid_run_id, []).
Proof.
  apply (run_id_with_separator_rejected (cfg := sample_config)
           (rt := eval_runtime good_run ticking_clock) (str "../secret") []).
  left. reflexivity.
Defined.

(** *** Inference pass-through *)

Lemma onyx_forces_non_streaming_witness :
  (onyx_chat (cfg := sample_config) (rt := onyx_empty_200) (JDict streaming_chat) []).2 =
  [] ++ [HttpCall (upstream_request (ONYX_API_URL (Config := sample_config))
                     (str "POST") (str "/chat") JNull
                     (JDict (<[str "stream" := JBool false]> streaming_chat))
                     (_onyx_headers (cfg := sample_config)))].
Proof.
  apply (onyx_forces_non_streaming (cfg := sample_config) (rt := onyx_empty_200)
           streaming_chat []).
  by_evaluation.
Defined.

(** *** Evaluation runs *)

Lemma eval_failure_reports_process_witness :
  run_eval (cfg := sample_config) (rt := eval_runtime failed_run ticking_clock)
    (JDict smoke_request) [] =
  (Raise {| exc_status := 502;
            exc_detail :=
              JDict (dict_of
                [(str "upstream", JStr (str "caiatech-eval-service"));
                 (str "returncode", JInt (returncode failed_run));
                 (str "stdout", JStr (strip (stdout failed_run)));
                 (str "stderr", JStr (strip (stderr failed_run)))]) |},
   after_spawn (cfg := sample_config) (rt := eval_runtime failed_run ticking_clock)
     [] (smoke_command "http://onyx:8000")).
Proof.
  apply (eval_failure_reports_process (cfg := sample_config)
           (rt := eval_runtime failed_run ticking_clock)
           smoke_request [] (str "smoke-v1") (str "http://onyx:8000") (str "reg-key")).
  - scenario.
  - by_evaluation.
Defined.

(** C4, as stated, fails: the process wrote the line "model not found" and a
    newline on stderr; the error carries the exit code 1, but the stderr
    text without the newline, so not what was captured. *)
Lemma eval_failure_streams_not_verbatim :
  (run_eval (cfg := sample_config) (rt := eval_runtime failed_run ticking_clock)
     (JDict smoke_request) []).1 =
  Raise {| exc_status := 502;
           exc_detail :=
             JDict (dict_of
               [(str "upstream", JStr (str "caiatech-eval-service"));
                (str "returncode", JInt 1);
                (str "stdout", JStr []);
                (str "stderr", JStr (str "model not found"))]) |}
  /\ stderr failed_run <> str "model not found".
Proof. split; by_evaluation. Qed.

Lemma eval_success_is_stamped_witness :
  exists result : dict,
    run_eval (cfg := sample_config) (rt := eval_runtime good_run ticking_clock)
      (JDict smoke_request) [] =
    (Ok (JDict result),
     after_spawn (cfg := sample_config) (rt := eval_runtime good_run ticking_clock)
       [] (smoke_command "http://onyx:8000") ++ [ClockRead])
    /\ result !! str "eval_run_id" = Some (JStr (str "run-42"))
    /\ (forall k, k <> str "started_at" -> k <> str "finished_at" ->
        result !! k = good_run_fields !! k)
    /\ result !! str "started_at" = Some (JStr (str "2024-01-01T00:00:00Z"))
    /\ result !! str "finished_at" = Some (JStr (str "2024-01-01T00:00:01Z")).
Proof.
  destruct (eval_success_is_stamped (cfg := sample_config)
              (rt := eval_runtime good_run ticking_clock)
              smoke_request [] (str "smoke-v1") (str "http://onyx:8000") (str "reg-key")
              (smoke_command "http://onyx:8000") good_run good_run_fields (str "run-42"))
    as (result & Hrun & Hid & Hkeep & Hstart & Hfinish & _);
    [scenario | by_evaluation | by_evaluation | by_evaluation |].
  exists result. repeat apply conj; assumption.
Defined.

(** C5, as stated, fails.  First, a field the process printed is not in the
    result when its name is [started_at]: the gateway's stamp replaces it.
    Second, the stamps follow the wall clock: when it is set back during the
    run, [finished_at] is earlier than [started_at]. *)
Lemma eval_stamps_replace_and_follow_clock :
  (json_loads (Runtime := eval_runtime restamped_run ticking_clock)
     (strip (stdout restamped_run)) =
   inr (JDict (dict_of [(str "eval_run_id", JStr (str "run-42"));
                        (str "started_at", JStr (str "yesterday"))]))
   /\ (run_eval (cfg := sample_config) (rt := eval_runtime restamped_run ticking_clock)
         (JDict smoke_request) []).1 =
      Ok (JDict (dict_of [(str "eval_run_id", JStr (str "run-42"));
                          (str "started_at", JStr (str "2024-01-01T00:00:00Z"));
                          (str "finished_at", JStr (str "2024-01-01T00:00:01Z"))])))
  /\
  (run_eval (cfg := sample_config) (rt := eval_runtime good_run clock_set_back)
     (JDict smoke_request) []).1 =
  Ok (JDict (dict_of [(str "eval_run_id", JStr (str "run-42"));
                      (str "accuracy", JInt 1);
                      (str "started_at", JStr (str "2024-01-01T00:00:05Z"));
                      (str "finished_at", JStr (str "2024-01-01T00:00:00Z"))])).
Proof. repeat apply conj; by_evaluation. Qed.

Lemma omitted_inference_url_defaults_witness :
  run_eval (cfg := sample_config) (rt := eval_runtime good_run ticking_clock)
    (JDict smoke_request) [] =
  run_eval (cfg := sample_config) (rt := eval_runtime good_run ticking_clock)
    (JDict (<[str "inference_url" := JStr (_default_inference_url (cfg := sample_config))]>
              smoke_request)) []
  /\ _default_inference_url (cfg := sample_config) = str "http://onyx:8000".
Proof.
  split.
  - apply (omitted_inference_url_defaults (cfg := sample_config)
             (rt := eval_runtime good_run ticking_clock) smoke_request []).
    by_evaluation.
  - by_evaluation.
Defined.

(** C6, as stated, fails: with the inference URL configured empty (the
    variable holds a lone slash) and no [inference_url] in the request,
    nothing is rejected; the process is spawned with the built-in URL. *)
Lemma empty_default_falls_back_to_loopback :
  ONYX_API_URL (Config := no_onyx_config) = []
  /\ smoke_request !! str "inference_url" = None
  /\ run_eval (cfg := no_onyx_config) (rt := eval_runtime good_run ticking_clock)
       (JDict smoke_request) [] =
     (Ok (JDict (dict_of [(str "eval_run_id", JStr (str "run-42"));
                          (str "accuracy", JInt 1);
                          (str "started_at", JStr (str "2024-01-01T00:00:00Z"));
                          (str "finished_at", JStr (str "2024-01-01T00:00:01Z"))])),
      [PathExists (PathDiv (PathDiv (PathOf (str "/srv/eval")) (str "caiatech_eval_service"))
                     (str "runner.py"));
       Mkdir (PathOf (str "/srv/runs"));
       ClockRead;
       Spawn (smoke_command "http://127.0.0.1:8000") (str "/srv/eval");
       ClockRead]).
Proof. repeat apply conj; by_evaluation. Qed.

(** *** Aggregate health *)



(** * Further properties of the gateway *)

(** ** More on strings *)

Lemma lstrip_by_head p s :
  lstrip_by p s = [] \/ exists c t, lstrip_by p s = c :: t /\ p c = false.
Proof.
  induction s as [|x s IH]; simpl; [left; reflexivity|].
  destruct (p x) eqn:Hx; [exact IH|]. right. exists x, s. split; [reflexivity | exact Hx].
Qed.

Lemma rstrip_by_last p s :
  rstrip_by p s = [] \/ exists t c, rstrip_by p s = t ++ [c] /\ p c = false.
Proof.
  induction s as [|x s IH]; simpl; [left; reflexivity|].
  destruct IH as [-> | (t & c & -> & Hc)].
  - destruct (p x) eqn:Hx; [left; reflexivity|].
    right. exists [], x. split; [reflexivity | exact Hx].
  - right. exists (x :: t), c. split; [|exact Hc]. destruct t; reflexivity.
Qed.

Lemma rstrip_by_fixed p t c : p c = false -> rstrip_by p (t ++ [c]) = t ++ [c].
Proof. intros Hc. rewrite rstrip_by_app by exact Hc. reflexivity. Qed.

Lemma lstrip_by_keeps_last p t c :
  p c = false -> exists u, lstrip_by p (t ++ [c]) = u ++ [c].
Proof.
  intros Hc. induction t as [|x t IH]; simpl.
  - rewrite Hc. exists []. reflexivity.
  - destruct (p x); [exact IH|]. exists (x :: t). reflexivity.
Qed.

(** [s.strip()] is empty, or starts and ends with characters that are not
    white space. *)
Lemma strip_shape s :
  strip s = []
  \/ exists c t u d, strip s = c :: t /\ strip s = u ++ [d]
                     /\ is_whitespace c = false /\ is_whitespace d = false.
Proof.
  unfold strip. destruct (rstrip_by_last is_whitespace s) as [-> | (t & d & -> & Hd)].
  - left. reflexivity.
  - right. destruct (lstrip_by_keeps_last is_whitespace t d Hd) as [u Hu].
    destruct (lstrip_by_head is_whitespace (t ++ [d])) as [He | (c & t' & Hc & Hws)].
    + rewrite He in Hu. destruct u; discriminate.
    + exists c, t', u, d. auto.
Qed.

Lemma strip_idempotent s : strip (strip s) = strip s.
Proof.
  destruct (strip_shape s) as [-> | (c & t & u & d & Hhead & Hlast & Hc & Hd)];
    [reflexivity|].
  unfold strip at 1. rewrite Hlast, rstrip_by_fixed by exact Hd.
  rewrite <- Hlast, Hhead. simpl. rewrite Hc. reflexivity.
Qed.

Lemma rstrip_by_all p s : forallb p s = true -> rstrip_by p s = [].
Proof.
  induction s as [|x s IH]; simpl; [reflexivity|].
  intros [Hx Hs]%andb_true_iff. rewrite (IH Hs), Hx. reflexivity.
Qed.

Lemma strip_blank s : forallb is_whitespace s = true -> strip s = [].
Proof. intros H. unfold strip. rewrite rstrip_by_all by exact H. reflexivity. Qed.

(** ** Run identifiers, continued *)

Lemma safe_run_id_cases (raw : pystr) (tr : trace) :
  (strip raw = []
   /\ _safe_run_id raw tr =
      (Raise {| exc_status := 400; exc_detail := JStr (str "eval_run_id is required") |}, tr))
  \/ (strip raw <> [] /\ (exists c, In c [47%N; 92%N; 0%N] /\ In c (strip raw))
      /\ _safe_run_id raw tr = (Raise invalid_run_id, tr))
  \/ (strip raw <> [] /\ (forall c, In c [47%N; 92%N; 0%N] -> ~ In c (strip raw))
      /\ _safe_run_id raw tr = (Ok (strip raw), tr)).
Proof.
  unfold _safe_run_id. destruct (strip raw) as [|x s] eqn:E; [left; split; reflexivity|].
  right. destruct (existsb _ _) eqn:Hex.
  - left. split; [discriminate|]. split; [|reflexivity].
    apply existsb_exists in Hex. destruct Hex as (sep & Hsep & Hc).
    simpl in Hsep. destruct Hsep as [<- | [<- | [<- | []]]];
      apply contains_char_In in Hc; eexists; (split; [|exact Hc]); simpl; auto.
  - right. split; [discriminate|]. split; [|reflexivity].
    intros c Hsep Hin.
    assert (Htrue : existsb (fun sep => contains sep (x :: s)) [str "/"; str "\"; [0%N]] = true);
      [|rewrite Htrue in Hex; discriminate].
    apply existsb_exists. exists [c]. split.
    + simpl in Hsep |- *. destruct Hsep as [<- | [<- | [<- | []]]]; auto.
    + apply contains_char_In. exact Hin.
Qed.

(** X1: whatever [_safe_run_id] accepts is the trimmed identifier; it is not
    empty, holds no [/], backslash or null character, and no effect took
    place. *)
Theorem safe_run_id_sound (raw rid : pystr) (tr tr' : trace) :
  _safe_run_id raw tr = (Ok rid, tr') ->
  rid = strip raw /\ rid <> []
  /\ (forall c, In c [47%N; 92%N; 0%N] -> ~ In c rid)
  /\ tr' = tr.
Proof.
  intros Hrun.
  destruct (safe_run_id_cases raw tr) as [(_ & H) | [(_ & _ & H) | (Hne & Hclean & H)]];
    rewrite H in Hrun; try discriminate.
  injection Hrun as <- <-. auto.
Qed.

(** X2: an accepted identifier is accepted again, unchanged: validating
    twice is the same as validating once. *)
Theorem safe_run_id_idempotent (raw rid : pystr) (tr tr' : trace) :
  _safe_run_id raw tr = (Ok rid, tr') ->
  _safe_run_id rid tr = (Ok rid, tr).
Proof.
  intros Hrun.
  destruct (safe_run_id_cases raw tr) as [(_ & H) | [(_ & _ & H) | (Hne & Hclean & H)]];
    rewrite H in Hrun; try discriminate.
  injection Hrun as <- <-.
  destruct (safe_run_id_cases (strip raw) tr)
    as [(He & _) | [(_ & (c & Hsep & Hin) & _) | (_ & _ & H')]].
  - rewrite strip_idempotent in He. contradiction.
  - rewrite strip_idempotent in Hin. destruct (Hclean c Hsep Hin).
  - rewrite strip_idempotent in H'. exact H'.
Qed.

Section RunFilesMore.
Context {cfg : Config} {rt : Runtime}.

(** X3: an identifier that is empty or all white space is refused by both
    file endpoints with the 400 error "eval_run_id is required", before any
    file-system access. *)
Theorem blank_run_id_rejected (raw : pystr) (tr : trace) :
  forallb is_whitespace raw = true ->
  let required :=
    {| exc_status := 400; exc_detail := JStr (str "eval_run_id is required") |} in
  get_eval_summary raw tr = (Raise required, tr)
  /\ get_eval_jsonl raw tr = (Raise required, tr).
Proof.
  intros Hblank required.
  unfold get_eval_summary, get_eval_jsonl, bind, _safe_run_id.
  rewrite (strip_blank raw Hblank). split; reflexivity.
Qed.

Lemma eval_summary_trace (raw rid : pystr) (tr : trace) :
  _safe_run_id raw tr = (Ok rid, tr) ->
  let path := PathDiv EVAL_RUNS_DIR (rid ++ str "_summary.json") in
  (get_eval_summary raw tr).2 =
  tr ++ PathExists path
     :: match path_exists tr path with
        | Some true => [ReadText path]
        | _ => []
        end.
Proof.
  intros Hid path. unfold get_eval_summary, bind. rewrite Hid.
  unfold path_test, bind, effect. fold path.
  destruct (path_exists tr path) as [[|]|]; [|reflexivity|reflexivity].
  unfold ret at 1. unfold read_json, bind, effect, crash, ret.
  destruct (read_text (tr ++ [PathExists path]) path) as [t|];
    [destruct (json_loads t) as [e|v]; [|destruct (json_renders v)]|];
    cbn [snd]; rewrite <- app_assoc; reflexivity.
Qed.

(** X4: the summary endpoint touches at most one path, the file
    [<trimmed id>_summary.json] directly under the runs directory, and only
    for an identifier without separators: it tests that the file exists and
    then, at most, reads it. *)
Theorem eval_summary_touches_one_path (raw : pystr) (tr : trace) :
  let path := PathDiv EVAL_RUNS_DIR (strip raw ++ str "_summary.json") in
  (get_eval_summary raw tr).2 = tr
  \/ ((forall c, In c [47%N; 92%N; 0%N] -> ~ In c (strip raw))
      /\ ((get_eval_summary raw tr).2 = tr ++ [PathExists path]
          \/ (get_eval_summary raw tr).2 = tr ++ [PathExists path; ReadText path])).
Proof.
  intros path.
  destruct (safe_run_id_cases raw tr) as [(_ & H) | [(_ & _ & H) | (Hne & Hclean & H)]].
  - left. unfold get_eval_summary, bind. rewrite H. reflexivity.
  - left. unfold get_eval_summary, bind. rewrite H. reflexivity.
  - right. split; [exact Hclean|].
    rewrite (eval_summary_trace raw (strip raw) tr H). fold path.
    destruct (path_exists tr path) as [[|]|]; [right | left | left]; reflexivity.
Qed.

(** X5: for an accepted identifier whose file is absent, each file endpoint
    answers 404 after the one existence test, and reads nothing. *)
Theorem missing_run_file_is_404 (raw rid : pystr) (tr : trace) :
  _safe_run_id raw tr = (Ok rid, tr) ->
  (path_exists tr (PathDiv EVAL_RUNS_DIR (rid ++ str "_summary.json")) = Some false ->
   get_eval_summary raw tr =
   (Raise {| exc_status := 404; exc_detail := JStr (str "Eval summary not found") |},
    tr ++ [PathExists (PathDiv EVAL_RUNS_DIR (rid ++ str "_summary.json"))]))
  /\
  (path_exists tr (PathDiv EVAL_RUNS_DIR (rid ++ str ".jsonl")) = Some false ->
   get_eval_jsonl raw tr =
   (Raise {| exc_status := 404; exc_detail := JStr (str "Eval jsonl not found") |},
    tr ++ [PathExists (PathDiv EVAL_RUNS_DIR (rid ++ str ".jsonl"))])).
Proof.
  intros Hid. unfold get_eval_summary, get_eval_jsonl, bind. rewrite Hid.
  unfold path_test, bind, effect. split; intros ->; reflexivity.
Qed.

(** X6: for an accepted identifier whose summary file exists and holds JSON
    that [JSONResponse] can render, the summary endpoint returns the decoded
    document; a document it cannot render (one with a NaN, say) is not
    returned: the [ValueError] of the rendering leaves the handler.  For an
    existing detail log the other endpoint hands out exactly that path. *)
Theorem existing_run_file_served (raw rid body_text : pystr) (doc : json) (tr : trace) :
  _safe_run_id raw tr = (Ok rid, tr) ->
  let summary := PathDiv EVAL_RUNS_DIR (rid ++ str "_summary.json") in
  let log := PathDiv EVAL_RUNS_DIR (rid ++ str ".jsonl") in
  (path_exists tr summary = Some true ->
   read_text (tr ++ [PathExists summary]) summary = Some body_text ->
   json_loads body_text = inr doc ->
   get_eval_summary raw tr =
   (if json_renders doc then Ok doc else Uncaught (str "ValueError"),
    tr ++ [PathExists summary; ReadText summary]))
  /\
  (path_exists tr log = Some true ->
   get_eval_jsonl raw tr = (Ok log, tr ++ [PathExists log])).
Proof.
  intros Hid summary log. unfold get_eval_summary, get_eval_jsonl, bind. rewrite Hid.
  unfold read_json, path_test, bind, effect. fold summary log. split.
  - intros -> Hread Hdoc. unfold ret at 1.
    rewrite Hread, Hdoc. unfold ret at 1. rewrite <- app_assoc.
    destruct (json_renders doc); reflexivity.
  - intros ->. reflexivity.
Qed.

End RunFilesMore.

(** ** The upstream client, continued *)

Section UpstreamClientMore.
Context {rt : Runtime}.
Variables (upstream base_url method path : pystr) (params json_body : json).
Variable headers : gmap pystr pystr.
Variable tr : trace.

#[local] Abbreviation req :=
  (upstream_request base_url method path params json_body headers).

(** X7: the client either returns a value, or raises an [HTTPException]
    whose status is at least 400 (503 without a base URL, 502 for a
    transport failure or an undecodable body, else the status of the
    upstream), or lets through the exception that [client.request] raised
    when that is not an [httpx.RequestError]; it has no other outcome. *)
Theorem upstream_client_raises_only_http_errors :
  match (_request_upstream upstream base_url method path params json_body headers tr).1 with
  | Ok _ => True
  | Raise e => 400 <= exc_status e
  | Uncaught what =>
      base_url <> [] /\ client_request tr req = inl (OtherException what)
  end.
Proof.
  unfold _request_upstream, bind, effect, raise, crash, ret, upstream_request.
  destruct base_url; [simpl; lia|]. simpl.
  destruct (client_request tr _) as [[e|w]|resp];
    [simpl; lia | simpl; split; [discriminate | reflexivity] |].
  destruct (Z.leb_spec 400 (status_code resp)); [simpl; lia|].
  destruct (status_code resp =? 204); [exact I|].
  destruct (json_loads (text resp)); simpl; [lia | exact I].
Qed.

(** X8: when the request cannot be carried out ([httpx.RequestError]), the
    client raises 502 with a detail that names the upstream and quotes the
    failure; the one request was attempted and is not repeated. *)
Theorem upstream_transport_failure (failure : pystr) :
  base_url <> [] ->
  client_request tr req = inl (RequestError failure) ->
  _request_upstream upstream base_url method path params json_body headers tr =
  (Raise {| exc_status := 502;
            exc_detail := JStr (upstream ++ str " request failed: " ++ failure) |},
   tr ++ [HttpCall req]).
Proof.
  intros Hbase Hfail. unfold _request_upstream, bind, effect, raise.
  unfold upstream_request in Hfail.
  destruct base_url as [|c b]; [congruence|].
  simpl in Hfail |- *. rewrite Hfail. reflexivity.
Qed.

(** X9: a response with a status below 400 other than 204 yields its decoded
    body, whatever JSON value that is; when the body does not decode the
    client raises 502 "returned invalid JSON" with the decoder's message. *)
Theorem upstream_body_decoded (resp : response) :
  base_url <> [] ->
  client_request tr req = inr resp ->
  status_code resp < 400 -> status_code resp <> 204 ->
  _request_upstream upstream base_url method path params json_body headers tr =
  (match json_loads (text resp) with
   | inr value => Ok value
   | inl message =>
       Raise {| exc_status := 502;
                exc_detail := JStr (upstream ++ str " returned invalid JSON: " ++ message) |}
   end,
   tr ++ [HttpCall req]).
Proof.
  intros Hbase Hresp Hlt Hne. unfold _request_upstream, bind, effect, raise, ret.
  unfold upstream_request in Hresp.
  destruct base_url as [|c b]; [congruence|].
  simpl in Hresp |- *. rewrite Hresp.
  destruct (Z.leb_spec 400 (status_code resp)); [lia|].
  destruct (Z.eqb_spec (status_code resp) 204); [congruence|].
  destruct (json_loads (text resp)); reflexivity.
Qed.

End UpstreamClientMore.

(** ** Pass-through endpoints *)

Section PassThrough.
Context {cfg : Config} {rt : Runtime}.

(** X10: with no base URL for the inference upstream, each of its four
    endpoints fails with 503 "onyx-api base URL not configured"; with none
    for the artifact cache, so do its two endpoints.  Nothing is sent. *)
Theorem unconfigured_upstream_is_not_called (body : json) (tr : trace) :
  (ONYX_API_URL = [] ->
   onyx_health tr = (Raise (not_configured "onyx-api"), tr)
   /\ onyx_models_loaded tr = (Raise (not_configured "onyx-api"), tr)
   /\ onyx_generate body tr = (Raise (not_configured "onyx-api"), tr)
   /\ onyx_chat body tr = (Raise (not_configured "onyx-api"), tr))
  /\
  (ARTIFACT_CACHE_URL = [] ->
   artifact_health tr = (Raise (not_configured "artifact-cache-service"), tr)
   /\ artifact_resolve body tr = (Raise (not_configured "artifact-cache-service"), tr)).
Proof.
  split; intros Hurl.
  - unfold onyx_health, onyx_models_loaded, onyx_generate, onyx_chat, _request_upstream.
    rewrite Hurl. repeat split; reflexivity.
  - unfold artifact_health, artifact_resolve, _request_upstream.
    rewrite Hurl. split; reflexivity.
Qed.

(** X11: without a registry API key every registry endpoint, and checkpoint
    resolution with them, fails with 503 before anything is sent. *)
Theorem registry_key_required (model_id limit offset : Z)
    (status name q tag suite : option pystr) (sort order to_status : pystr) (tr : trace) :
  key_configured REGISTRY_API_KEY = false ->
  stats tr = (Raise registry_key_missing, tr)
  /\ list_models status name q tag limit offset sort order tr
     = (Raise registry_key_missing, tr)
  /\ get_model model_id tr = (Raise registry_key_missing, tr)
  /\ get_model_metrics model_id suite tr = (Raise registry_key_missing, tr)
  /\ get_model_events model_id limit offset tr = (Raise registry_key_missing, tr)
  /\ promote_model model_id to_status tr = (Raise registry_key_missing, tr)
  /\ resolve_model_checkpoint model_id tr = (Raise registry_key_missing, tr).
Proof.
  intros Hkey.
  assert (Hreq : forall method path params json_body,
             _registry_request method path params json_body true tr
             = (Raise registry_key_missing, tr)).
  { intros. unfold _registry_request, bind, _require_registry_key.
    destruct REGISTRY_API_KEY as [[|c k]|]; [reflexivity | discriminate | reflexivity]. }
  unfold stats, list_models, get_model, get_model_metrics, get_model_events, promote_model,
    resolve_model_checkpoint, bind.
  rewrite !Hreq. repeat split; reflexivity.
Qed.

(** X12: with a key and a base URL configured, each registry endpoint sends
    exactly one request: to its own path under the registry URL, with its
    query parameters, no JSON body, and the key in the [X-API-Key] header. *)
Theorem registry_requests_carry_key (key : pystr) (model_id limit offset : Z)
    (status name q tag suite : option pystr) (sort order to_status : pystr) (tr : trace) :
  REGISTRY_API_KEY = Some key -> key <> [] -> REGISTRY_URL <> [] ->
  let model := str "/models/" ++ str_of_Z model_id in
  (stats tr).2 = tr ++ [registry_call key (str "GET") (str "/stats") JNull]
  /\ (list_models status name q tag limit offset sort order tr).2 =
     tr ++ [registry_call key (str "GET") (str "/models")
              (JDict (list_models_params status name q tag limit offset sort order))]
  /\ (get_model model_id tr).2 = tr ++ [registry_call key (str "GET") model JNull]
  /\ (get_model_metrics model_id suite tr).2 =
     tr ++ [registry_call key (str "GET") (model ++ str "/metrics")
              (JDict (add_param (str "suite") suite ∅))]
  /\ (get_model_events model_id limit offset tr).2 =
     tr ++ [registry_call key (str "GET") (model ++ str "/events")
              (JDict (dict_of [(str "limit", JInt limit); (str "offset", JInt offset)]))]
  /\ (promote_model model_id to_status tr).2 =
     tr ++ [registry_call key (str "POST") (model ++ str "/promote")
              (JDict (dict_of [(str "to_status", JStr to_status)]))].
Proof.
  intros Hkey Hne Hurl model.
  assert (Hreq : forall method path params,
             (_registry_request method path params JNull true tr).2
             = tr ++ [registry_call key method path params]).
  { intros. unfold _registry_request, bind, _require_registry_key. rewrite Hkey.
    destruct key as [|c k]; [congruence|]. unfold ret. cbv beta iota.
    rewrite request_upstream_trace. unfold registry_call.
    destruct REGISTRY_URL; [congruence | reflexivity]. }
  unfold stats, list_models, get_model, get_model_metrics, get_model_events, promote_model.
  rewrite !Hreq. unfold model. rewrite <- !app_assoc. repeat split; reflexivity.
Qed.

(** X13: the query of [/api/models] always carries the paging and ordering
    parameters, and a filter only when it was given and is not empty: an
    empty filter is dropped, not forwarded. *)
Theorem list_models_filters (status name q tag : option pystr) (limit offset : Z)
    (sort order : pystr) :
  let params := list_models_params status name q tag limit offset sort order in
  let given (v : option pystr) : option json :=
    match v with
    | Some (c :: s) => Some (JStr (c :: s))
    | _ => None
    end in
  params !! str "limit" = Some (JInt limit)
  /\ params !! str "offset" = Some (JInt offset)
  /\ params !! str "sort" = Some (JStr sort)
  /\ params !! str "order" = Some (JStr order)
  /\ params !! str "status" = given status
  /\ params !! str "name" = given name
  /\ params !! str "q" = given q
  /\ params !! str "tag" = given tag.
Proof.
  intros params given. unfold params, list_models_params, add_param, dict_of.
  cbn [fold_left fst snd].
  destruct status as [[|? ?]|], name as [[|? ?]|], q as [[|? ?]|], tag as [[|? ?]|];
    cbn [given];
    repeat split;
    repeat first [ rewrite lookup_insert_eq; reflexivity
                 | rewrite lookup_insert_ne by (vm_compute; discriminate)
                 | apply lookup_empty ].
Qed.

Lemma probe_cases (call : M json) (tr : trace) :
  (exists r, probe call tr = (Ok r, (call tr).2))
  \/ (exists what, probe call tr = (Uncaught what, (call tr).2)).
Proof.
  unfold probe. destruct (call tr) as [[v|e|w] tr']; cbn [snd];
    [left | left | right]; eexists; reflexivity.
Qed.

Lemma health_probe_trace (upstream base_url : pystr) (tr : trace) :
  (_request_upstream upstream base_url (str "GET") (str "/health") JNull JNull ∅ tr).2
  = tr ++ health_probe_call base_url.
Proof.
  rewrite request_upstream_trace. unfold health_probe_call.
  destruct base_url; [rewrite app_nil_r|]; reflexivity.
Qed.

(** A call of [/health] either returns, having made all its calls, or is
    ended by an exception other than [HTTPException], part-way. *)
Lemma health_run (tr : trace) :
  let calls :=
    health_probe_call REGISTRY_URL ++ health_probe_call ARTIFACT_CACHE_URL
      ++ health_probe_call ONYX_API_URL ++ [PathExists EVAL_SERVICE_DIR] in
  exists o sent rest,
    health tr = (o, tr ++ sent)
    /\ sent ++ rest = calls
    /\ (is_uncaught o = false -> rest = []).
Proof.
  intros calls. unfold calls, health.
  unfold bind at 1.
  destruct (probe_cases
              (_registry_request (str "GET") (str "/health") JNull JNull false) tr)
    as [[r1 ->]|[w ->]];
    rewrite registry_request_without_key, health_probe_trace.
  2:{ do 3 eexists. split; [reflexivity|]. split; [reflexivity | discriminate]. }
  unfold bind at 1.
  destruct (probe_cases
              (_request_upstream (str "artifact-cache-service") ARTIFACT_CACHE_URL
                 (str "GET") (str "/health") JNull JNull ∅)
              (tr ++ health_probe_call REGISTRY_URL))
    as [[r2 ->]|[w ->]];
    rewrite health_probe_trace, <- app_assoc.
  2:{ do 3 eexists. split; [reflexivity|].
      split; [rewrite <- app_assoc; reflexivity | discriminate]. }
  unfold bind at 1.
  destruct (probe_cases
              (_request_upstream (str "onyx-api") ONYX_API_URL
                 (str "GET") (str "/health") JNull JNull ∅)
              (tr ++ health_probe_call REGISTRY_URL ++ health_probe_call ARTIFACT_CACHE_URL))
    as [[r3 ->]|[w ->]];
    rewrite health_probe_trace, <- !app_assoc.
  2:{ do 3 eexists. split; [reflexivity|].
      split; [rewrite <- !app_assoc; reflexivity | discriminate]. }
  unfold path_test, bind, effect.
  destruct (path_exists _ EVAL_SERVICE_DIR); unfold ret, crash;
    rewrite <- !app_assoc;
    (eexists; eexists; exists []; split; [reflexivity|]);
    rewrite app_nil_r; split; reflexivity.
Qed.

(** X14: the probes of [/health] go out without any header, so without an
    API key even when one is configured.  What a call of [/health] does is
    always a beginning of: one bare [GET /health] per upstream that has a
    base URL, in the order registry, artifact cache, inference, followed by
    the look at the evaluation directory; it is all of it unless an
    exception other than [HTTPException] ended the call. *)
Theorem health_probes_are_unauthenticated (tr : trace) :
  let calls :=
    health_probe_call REGISTRY_URL ++ health_probe_call ARTIFACT_CACHE_URL
      ++ health_probe_call ONYX_API_URL ++ [PathExists EVAL_SERVICE_DIR] in
  (exists rest, (health tr).2 ++ rest = tr ++ calls)
  /\ (is_uncaught (health tr).1 = false -> (health tr).2 = tr ++ calls).
Proof.
  intros calls.
  destruct (health_run tr) as (o & sent & rest & -> & Hcalls & Hall).
  fold calls in Hcalls. cbn [fst snd]. split.
  - exists rest. rewrite <- app_assoc, Hcalls. reflexivity.
  - intros Ho. rewrite (Hall Ho), app_nil_r in Hcalls. rewrite Hcalls. reflexivity.
Qed.

End PassThrough.

(** ** Checkpoint resolution, continued *)

Section CheckpointMore.
Context {cfg : Config} {rt : Runtime}.

Lemma registry_request_trace (method path : pystr) (params : json) (tr : trace) :
  (_registry_request method path params JNull true tr).2 = tr
  \/ exists key,
       (_registry_request method path params JNull true tr).2
       = tr ++ [registry_call key method path params].
Proof.
  unfold _registry_request, bind, _require_registry_key.
  destruct REGISTRY_API_KEY as [[|c k]|]; [left; reflexivity | | left; reflexivity].
  unfold ret. cbv beta iota. rewrite request_upstream_trace.
  destruct REGISTRY_URL eqn:E; [left; reflexivity|].
  right. exists (c :: k). unfold registry_call. rewrite E. reflexivity.
Qed.


(** X16: when the registry returns something that is not an object the
    resolution fails with 502, and when the object has no usable
    [artifact_uri] (absent, not a string, or blank) with 400; in both cases
    the artifact cache is not contacted. *)
Theorem malformed_model_record (model_id : Z) (tr tr1 : trace) (model : json) :
  _registry_request (str "GET") (str "/models/" ++ str_of_Z model_id) JNull JNull true tr
    = (Ok model, tr1) ->
  ((forall m, model <> JDict m) ->
   resolve_model_checkpoint model_id tr =
   (Raise {| exc_status := 502;
             exc_detail := JStr (str "model-registry returned invalid model payload") |},
    tr1))
  /\
  (forall m, model = JDict m ->
   is_nonblank_str (dict_get m (str "artifact_uri")) = false ->
   resolve_model_checkpoint model_id tr =
   (Raise {| exc_status := 400; exc_detail := JStr (str "Model is missing artifact_uri") |},
    tr1)).
Proof.
  intros Hfetch. unfold resolve_model_checkpoint, bind. rewrite Hfetch. split.
  - intros Hnot. destruct model; try reflexivity. destruct (Hnot d eq_refl).
  - intros m -> Hblank.
    destruct (dict_get m (str "artifact_uri")) as [| | | |u| |]; try reflexivity.
    simpl in Hblank. destruct (strip u); [reflexivity | discriminate].
Qed.

(** X17: a checkpoint resolution sends at most two requests: first the fetch
    of the model from the registry, then at most one [POST /resolve] to the
    artifact cache; the cache is never contacted before or without the
    registry fetch. *)
Theorem resolution_calls_at_most_two (model_id : Z) (tr : trace) :
  let fetch key :=
    registry_call key (str "GET") (str "/models/" ++ str_of_Z model_id) JNull in
  (resolve_model_checkpoint model_id tr).2 = tr
  \/ exists key,
       (resolve_model_checkpoint model_id tr).2 = tr ++ [fetch key]
       \/ exists body,
            (resolve_model_checkpoint model_id tr).2 =
            tr ++ [fetch key;
                   HttpCall (upstream_request ARTIFACT_CACHE_URL (str "POST") (str "/resolve")
                               JNull body _artifact_cache_headers)].
Proof.
  intros fetch.
  assert (Hcache : forall body t,
             (artifact_resolve body t).2 = t
             \/ (artifact_resolve body t).2 =
                t ++ [HttpCall (upstream_request ARTIFACT_CACHE_URL (str "POST")
                                  (str "/resolve") JNull body _artifact_cache_headers)]).
  { intros. unfold artifact_resolve. rewrite request_upstream_trace.
    destruct ARTIFACT_CACHE_URL; [left | right]; reflexivity. }
  assert (Hshape : forall t,
             (_registry_request (str "GET") (str "/models/" ++ str_of_Z model_id)
                JNull JNull true tr).2 = t ->
             (resolve_model_checkpoint model_id tr).2 = t
             \/ exists body,
                  (resolve_model_checkpoint model_id tr).2 =
                  t ++ [HttpCall (upstream_request ARTIFACT_CACHE_URL (str "POST")
                                    (str "/resolve") JNull body _artifact_cache_headers)]).
  { intros t Ht. unfold resolve_model_checkpoint, bind.
    destruct (_registry_request _ _ _ _ _ tr) as [[model|e|w] t1]; simpl in Ht; subst t1;
      [|left; reflexivity|left; reflexivity].
    destruct model as [| | | | | |m]; try (left; reflexivity).
    destruct (dict_get m (str "artifact_uri")) as [| | | |u| |]; try (left; reflexivity).
    destruct (strip u) as [|c s]; [left; reflexivity|].
    destruct (startswith (str "s3://") (c :: s)).
    - destruct (negb (is_nonblank_str _)); [left; reflexivity|].
      destruct (negb (is_size _)); [left; reflexivity|].
      destruct (Hcache (JDict (dict_of
                  [(str "artifact_uri", JStr (c :: s));
                   (str "sha256", dict_get m (str "checkpoint_sha256"));
                   (str "size_bytes",
                    JInt (int_value (dict_get m (str "checkpoint_size_bytes"))))])) t)
        as [H | H]; [left | right; eexists]; exact H.
    - destruct (startswith (str "file://") (c :: s) || negb (contains (str "://") (c :: s)));
        [|left; reflexivity].
      destruct (Hcache (JDict (local_payload (c :: s)
                                 (dict_get m (str "checkpoint_sha256"))
                                 (dict_get m (str "checkpoint_size_bytes")))) t)
        as [H | H]; [left | right; eexists]; exact H. }
  destruct (registry_request_trace (str "GET") (str "/models/" ++ str_of_Z model_id) JNull tr)
    as [Ht | [key Ht]].
  - destruct (Hshape _ Ht) as [H | [body H]].
    + left. exact H.
    + (* no fetch went out, so the outcome was an error and nothing followed *)
      exfalso. revert H. unfold resolve_model_checkpoint, bind.
      assert (Herr : forall v, (_registry_request (str "GET")
                                  (str "/models/" ++ str_of_Z model_id) JNull JNull true tr).1
                               <> Ok v).
      { intros v. revert Ht. unfold _registry_request, bind, _require_registry_key.
        destruct REGISTRY_API_KEY as [[|c k]|]; try (intros _; discriminate).
        unfold ret. cbv beta iota. unfold _request_upstream.
        destruct REGISTRY_URL; [intros _; discriminate|].
        unfold bind, effect. cbn [snd fst].
        intros Hbad. exfalso.
        assert (Hlen : length
                  ((match client_request tr _ with
                    | inl (RequestError e) => raise 502 _
                    | inl (OtherException w) => crash w
                    | inr resp => _
                    end (tr ++ [HttpCall _])).2) = length tr) by (rewrite Hbad; reflexivity).
        revert Hlen.
        destruct (client_request tr _) as [[e|w]|resp]; unfold raise, crash, ret.
        - cbn [snd]. rewrite length_app. simpl. lia.
        - cbn [snd]. rewrite length_app. simpl. lia.
        - destruct (400 <=? status_code resp); [cbn [snd]; rewrite length_app; simpl; lia|].
          destruct (status_code resp =? 204); [cbn [snd]; rewrite length_app; simpl; lia|].
          destruct (json_loads (text resp)); cbn [snd]; rewrite length_app; simpl; lia. }
      destruct (_registry_request _ _ _ _ _ tr) as [[v|e|w] t1];
        [destruct (Herr v eq_refl) | |]; simpl in Ht; subst t1; cbn [snd];
        intros Hbad; apply (f_equal (@length event)) in Hbad;
        rewrite length_app in Hbad; simpl in Hbad; lia.
  - right. exists key. destruct (Hshape _ Ht) as [H | [body H]].
    + left. exact H.
    + right. exists body. rewrite H. rewrite <- app_assoc. reflexivity.
Qed.

End CheckpointMore.

(** ** Evaluation runs, continued *)

Section EvalRunMore.
Context {cfg : Config} {rt : Runtime}.

Lemma eval_outcome_raises_502 (started_at : pystr) (proc : CompletedProcess) (t : trace)
    (e : HTTPException) :
  (eval_outcome started_at proc t).1 = Raise e -> exc_status e = 502.
Proof.
  unfold eval_outcome, bind, _now_utc_iso, effect, raise, ret.
  destruct (negb _); [intros [= <-]; reflexivity|].
  destruct (json_loads _) as [msg|v]; [intros [= <-]; reflexivity|].
  destruct v; try (intros [= <-]; reflexivity).
  destruct (dict_get _ _); intros [= <-]; reflexivity.
Qed.

(** X18: every 400 of [run_eval] is raised before any effect: a request that
    fails validation looks at no file, makes no directory and spawns
    nothing. *)
Theorem validation_errors_precede_effects (body : json) (tr : trace) (e : HTTPException) :
  (run_eval body tr).1 = Raise e ->
  exc_status e = 400 ->
  (run_eval body tr).2 = tr.
Proof.
  unfold run_eval.
  destruct body as [| | | | | |b]; try (intros; reflexivity).
  destruct (negb (is_int _)); [intros; reflexivity|].
  destruct (dict_get b (str "suite")) as [| | | |raw| |]; try (intros; reflexivity).
  destruct (strip raw) as [|c s]; [intros; reflexivity|].
  destruct (negb (existsb _ _)); [intros; reflexivity|].
  destruct (py_or _ _) as [| | | |url| |]; try (intros; reflexivity).
  destruct (negb (is_nonblank_str _)); [intros; reflexivity|].
  unfold bind at 1. rewrite eval_service_present_run.
  destruct (path_exists tr runner_path) as [[|]|];
    cbn [negb]; cbv beta iota; [|wrong_status|wrong_status].
  unfold bind at 1. unfold make_runs_dir, bind at 1, effect at 1.
  destruct (mkdir _ EVAL_RUNS_DIR); [|wrong_status].
  unfold ret at 1. unfold bind at 1, _require_registry_key.
  destruct REGISTRY_API_KEY as [[|k0 key]|];
    try wrong_status.
  unfold ret at 1. unfold bind at 1, _now_utc_iso, effect at 1.
  unfold bind at 1, run_process, bind at 1, effect at 1.
  destruct (subprocess_run _ _ _) as [proc|]; [|wrong_status].
  unfold ret at 1. intros H Hstatus.
  apply eval_outcome_raises_502 in H. lia.
Qed.


(** The traces [run_eval] can leave. *)
Lemma run_eval_trace_cases (P : trace -> Prop) (body : json) (tr : trace) :
  P tr ->
  P (tr ++ [PathExists runner_path]) ->
  P (before_clock tr) ->
  (forall cmd, key_configured REGISTRY_API_KEY = true -> P (after_spawn tr cmd)) ->
  (forall cmd, key_configured REGISTRY_API_KEY = true ->
               P (after_spawn tr cmd ++ [ClockRead])) ->
  P (run_eval body tr).2.
Proof.
  intros H0 H1 H2 H3 H4. unfold run_eval.
  destruct body as [| | | | | |b]; try exact H0.
  destruct (negb (is_int _)); [exact H0|].
  destruct (dict_get b (str "suite")) as [| | | |raw| |]; try exact H0.
  destruct (strip raw) as [|c s]; [exact H0|].
  destruct (negb (existsb _ _)); [exact H0|].
  destruct (py_or _ _) as [| | | |url| |]; try exact H0.
  destruct (negb (is_nonblank_str _)); [exact H0|].
  unfold bind at 1. rewrite eval_service_present_run.
  destruct (path_exists tr runner_path) as [[|]|];
    cbn [negb]; cbv beta iota; [|exact H1|exact H1].
  unfold bind at 1. unfold make_runs_dir, bind at 1, effect at 1.
  assert (Hbefore : (tr ++ [PathExists runner_path]) ++ [Mkdir EVAL_RUNS_DIR]
                    = before_clock tr)
    by (unfold before_clock; rewrite <- app_assoc; reflexivity).
  rewrite Hbefore.
  destruct (mkdir _ EVAL_RUNS_DIR); [|exact H2].
  unfold ret at 1. unfold bind at 1, _require_registry_key.
  destruct REGISTRY_API_KEY as [[|k0 key]|] eqn:Hkey; try exact H2.
  unfold ret at 1. unfold bind at 1, _now_utc_iso, effect at 1.
  unfold bind at 1, run_process, bind at 1, effect at 1.
  set (cmd := eval_command (k0 :: key) (c :: s) (dict_get b (str "model_id")) url b).
  assert (Hafter : (before_clock tr ++ [ClockRead]) ++ [Spawn cmd (path_str EVAL_SERVICE_DIR)]
                   = after_spawn tr cmd)
    by (unfold after_spawn; rewrite <- app_assoc; reflexivity).
  rewrite Hafter.
  destruct (subprocess_run _ cmd _) as [proc|]; [|exact (H3 cmd eq_refl)].
  unfold ret at 1.
  destruct (eval_outcome_trace (utc_stamp (utcnow (before_clock tr))) proc (after_spawn tr cmd))
    as [H | H]; rewrite H; [exact (H3 cmd eq_refl) | exact (H4 cmd eq_refl)].
Qed.

(** X20: [run_eval] proceeds in a fixed order and never repeats a step: it
    looks for the runner, makes the runs directory, reads the clock, spawns
    one process and reads the clock once more, stopping at the first
    failure.  A process is spawned only when the registry key is
    configured. *)
Theorem run_eval_effects_in_order (body : json) (tr : trace) :
  (run_eval body tr).2 = tr
  \/ (run_eval body tr).2 = tr ++ [PathExists runner_path]
  \/ (run_eval body tr).2 = before_clock tr
  \/ exists cmd,
       key_configured REGISTRY_API_KEY = true
       /\ ((run_eval body tr).2 = after_spawn tr cmd
           \/ (run_eval body tr).2 = after_spawn tr cmd ++ [ClockRead]).
Proof.
  apply (run_eval_trace_cases
           (fun t => t = tr
                     \/ t = tr ++ [PathExists runner_path]
                     \/ t = before_clock tr
                     \/ exists cmd,
                          key_configured REGISTRY_API_KEY = true
                          /\ (t = after_spawn tr cmd
                              \/ t = after_spawn tr cmd ++ [ClockRead]))).
  - left. reflexivity.
  - right. left. reflexivity.
  - right. right. left. reflexivity.
  - intros cmd Hkey. right. right. right. exists cmd. split; [exact Hkey|]. left. reflexivity.
  - intros cmd Hkey. right. right. right. exists cmd. split; [exact Hkey|]. right. reflexivity.
Qed.

(** X21: when the process exits 0 but its output does not decode, [run_eval]
    raises 502 with the decoder's message and the trimmed output; the clock
    is not read again. *)
Theorem invalid_process_output (b : dict) (tr : trace) (raw_suite url key : pystr)
    (cmd : list pystr) (proc : CompletedProcess) (message : pystr) :
  process_ran b tr raw_suite url key cmd proc ->
  returncode proc = 0 ->
  json_loads (strip (stdout proc)) = inl message ->
  run_eval (JDict b) tr =
  (Raise {| exc_status := 502;
            exc_detail :=
              JDict (dict_of
                [(str "upstream", JStr (str "caiatech-eval-service"));
                 (str "error", JStr (str "Invalid JSON on stdout: " ++ message));
                 (str "stdout", JStr (strip (stdout proc)))]) |},
   after_spawn tr cmd).
Proof.
  intros Hran Hcode Hout. rewrite (run_eval_process _ _ _ _ _ _ _ Hran).
  unfold eval_outcome. rewrite Hcode, Hout. reflexivity.
Qed.

(** X22: when the process exits 0 and prints JSON that is not an object with
    a string [eval_run_id], [run_eval] raises 502 "Missing eval_run_id". *)
Theorem process_output_without_run_id (b : dict) (tr : trace) (raw_suite url key : pystr)
    (cmd : list pystr) (proc : CompletedProcess) (doc : json) :
  process_ran b tr raw_suite url key cmd proc ->
  returncode proc = 0 ->
  json_loads (strip (stdout proc)) = inr doc ->
  (forall d run_id, doc = JDict d -> dict_get d (str "eval_run_id") <> JStr run_id) ->
  run_eval (JDict b) tr =
  (Raise {| exc_status := 502;
            exc_detail :=
              JDict (dict_of
                [(str "upstream", JStr (str "caiatech-eval-service"));
                 (str "error", JStr (str "Missing eval_run_id"))]) |},
   after_spawn tr cmd).
Proof.
  intros Hran Hcode Hout Hmissing. rewrite (run_eval_process _ _ _ _ _ _ _ Hran).
  unfold eval_outcome. rewrite Hcode, Hout. cbn [negb Z.eqb]. cbv beta iota.
  destruct doc as [| | | | | |d]; try reflexivity.
  specialize (Hmissing d).
  destruct (dict_get d (str "eval_run_id")) as [| | | |run_id| |]; try reflexivity.
  destruct (Hmissing run_id eq_refl eq_refl).
Qed.

(** X23: a valid request finds the evaluation service absent when its
    [runner.py] is not there: 503 with the configured directory in the
    message, after that one look; no directory is made, nothing is
    spawned. *)
Theorem missing_eval_service (b : dict) (raw_suite url : pystr) (tr : trace) :
  is_int (dict_get b (str "model_id")) = true ->
  dict_get b (str "suite") = JStr raw_suite ->
  In (strip raw_suite) SUITES ->
  py_or (dict_get b (str "inference_url")) (JStr _default_inference_url) = JStr url ->
  is_nonblank_str (JStr url) = true ->
  path_exists tr runner_path = Some false ->
  run_eval (JDict b) tr =
  (Raise {| exc_status := 503;
            exc_detail :=
              JStr (str "Eval service not found at " ++ path_str EVAL_SERVICE_DIR
                    ++ str " (set CAIA_EVAL_SERVICE_DIR)") |},
   tr ++ [PathExists runner_path]).
Proof.
  intros Hid Hsuite Hknown Hurl Hblank Habsent. unfold run_eval.
  rewrite Hid, Hsuite. cbn [negb]. cbv beta iota.
  assert (Hex : existsb (pystr_eqb (strip raw_suite)) SUITES = true).
  { apply existsb_exists. exists (strip raw_suite). split; [exact Hknown|].
    apply pystr_eqb_eq. reflexivity. }
  destruct (strip raw_suite) as [|c s] eqn:E; [discriminate|].
  rewrite Hex, Hurl, Hblank. cbn [negb]. cbv beta iota.
  unfold bind at 1. rewrite eval_service_present_run, Habsent.
  reflexivity.
Qed.

(** X24: [run_eval] reads eight fields of the request -- [model_id],
    [suite], [inference_url] and the five tuning knobs -- and no other:
    setting any other field changes neither the outcome nor the effects. *)
Theorem unrelated_fields_ignored (b : dict) (k : pystr) (v : json) (tr : trace) :
  ~ In k ([str "model_id"; str "suite"; str "inference_url"] ++ map fst TUNING_KNOBS) ->
  run_eval (JDict (<[k := v]> b)) tr = run_eval (JDict b) tr.
Proof.
  intros Hk.
  assert (Hget : forall k', In k' ([str "model_id"; str "suite"; str "inference_url"]
                                    ++ map fst TUNING_KNOBS) ->
                            dict_get (<[k := v]> b) k' = dict_get b k').
  { intros k' Hin. apply dict_get_insert_ne. intros ->. exact (Hk Hin). }
  assert (Hflags : tuning_flags (<[k := v]> b) = tuning_flags b).
  { unfold tuning_flags, TUNING_KNOBS. cbn [flat_map fst snd].
    rewrite !Hget by (vm_compute; tauto). reflexivity. }
  unfold run_eval, eval_command. rewrite Hflags.
  rewrite !Hget by (vm_compute; tauto). reflexivity.
Qed.

End EvalRunMore.

(** ** Configuration *)

Lemma rstrip_by_head p c t :
  rstrip_by p (c :: t) = [] \/ exists t', rstrip_by p (c :: t) = c :: t'.
Proof.
  simpl. destruct (rstrip_by p t) as [|x t'].
  - destruct (p c); [left | right; exists []]; reflexivity.
  - right. exists (x :: t'). reflexivity.
Qed.

Lemma strip_nonempty_of_head c t : is_whitespace c = false -> strip (c :: t) <> [].
Proof.
  intros Hc He. pose proof (In_strip c (c :: t) (or_introl eq_refl) Hc) as Hin.
  rewrite He in Hin. destruct Hin.
Qed.

(** A cleaned base URL is empty, or starts with a character that is not
    white space and does not end with a slash. *)
Lemma clean_base_url_shape (raw : pystr) :
  _clean_base_url raw = []
  \/ ((exists c t, _clean_base_url raw = c :: t /\ is_whitespace c = false)
      /\ forall t, _clean_base_url raw <> t ++ [47%N]).
Proof.
  unfold _clean_base_url.
  destruct (strip_shape raw) as [-> | (c & t & u & d & Hhead & _ & Hc & _)];
    [left; reflexivity|].
  rewrite Hhead. unfold rstrip_chars.
  destruct (rstrip_by_head (fun x => existsb (N.eqb x) (str "/")) c t) as [-> | [t' Ht]];
    [left; reflexivity|].
  right. split; [exists c, t'; split; [exact Ht | exact Hc]|].
  intros t0 Hslash.
  destruct (rstrip_by_last (fun x => existsb (N.eqb x) (str "/")) (c :: t))
    as [He | (t1 & x & Hlast & Hx)].
  - rewrite He in Ht. discriminate.
  - rewrite Hlast in Hslash. apply app_inj_tail in Hslash. destruct Hslash as [_ ->].
    discriminate Hx.
Qed.

(** X25: whatever the environment holds, each configured base URL is empty
    or starts with a character that is not white space and does not end
    with a slash; joined with a path that starts with a slash, it gives no
    doubled slash at the seam. *)
Theorem base_urls_are_clean (environ : pystr -> option pystr) (service_dir runs_dir : Path) :
  let cfg := load_config environ service_dir runs_dir in
  Forall (fun url : pystr =>
            url = []
            \/ ((exists c t, url = c :: t /\ is_whitespace c = false)
                /\ forall t, url <> t ++ [47%N]))
         [REGISTRY_URL; ARTIFACT_CACHE_URL; ONYX_API_URL].
Proof.
  intros cfg.
  constructor; [apply clean_base_url_shape|].
  constructor; [apply clean_base_url_shape|].
  constructor; [apply clean_base_url_shape|].
  constructor.
Qed.

Lemma api_key_of_env_shape (environ : pystr -> option pystr) (name : pystr) :
  api_key_of_env environ name = None
  \/ exists k, api_key_of_env environ name = Some k /\ k <> [] /\ strip k = k.
Proof.
  unfold api_key_of_env.
  destruct (strip (getenv_or environ name [])) as [|c k] eqn:E; [left; reflexivity|].
  right. exists (c :: k). split; [reflexivity|]. split; [discriminate|].
  rewrite <- E. apply strip_idempotent.
Qed.

(** X26: whatever the environment holds, a configured API key is never
    empty and has no white space around it; a key that is blank in the
    environment counts as not configured. *)
Theorem api_keys_are_trimmed (environ : pystr -> option pystr) (service_dir runs_dir : Path) :
  let cfg := load_config environ service_dir runs_dir in
  Forall (fun key : option pystr =>
            match key with
            | Some k => k <> [] /\ strip k = k /\ key_configured key = true
            | None => key_configured key = false
            end)
         [REGISTRY_API_KEY; ARTIFACT_CACHE_API_KEY; ONYX_API_KEY].
Proof.
  intros cfg.
  assert (H : forall name,
             match api_key_of_env environ name with
             | Some k => k <> [] /\ strip k = k
                         /\ key_configured (api_key_of_env environ name) = true
             | None => key_configured (api_key_of_env environ name) = false
             end).
  { intros name. destruct (api_key_of_env_shape environ name) as [-> | (k & -> & Hne & Hk)];
      [reflexivity|].
    repeat split; [exact Hne | exact Hk |]. destruct k; [congruence | reflexivity]. }
  constructor; [apply H|].
  constructor; [apply H|].
  constructor; [apply H|].
  constructor.
Qed.

Section DefaultUrl.
Context {rt : Runtime}.

(** A usable inference URL never meets the [inference_url] error. *)
Lemma usable_inference_url_passes {cfg : Config} (b : dict) (url : pystr) (tr : trace) :
  py_or (dict_get b (str "inference_url")) (JStr _default_inference_url) = JStr url ->
  is_nonblank_str (JStr url) = true ->
  (run_eval (JDict b) tr).1 <> Raise inference_url_required.
Proof.
  intros Hurl Hblank. unfold run_eval. rewrite Hurl, Hblank.
  cbn [negb]. cbv beta iota.
  destruct (negb (is_int (dict_get b (str "model_id")))); [differs|].
  destruct (dict_get b (str "suite")) as [| | | |raw| |]; try differs.
  destruct (strip raw) as [|c s]; [differs|].
  destruct (negb (existsb (pystr_eqb (c :: s)) SUITES)); [differs|].
  unfold bind at 1. rewrite eval_service_present_run.
  destruct (path_exists tr runner_path) as [[|]|];
    cbn [negb]; cbv beta iota; [|differs|differs].
  unfold bind at 1. unfold make_runs_dir, bind at 1, effect at 1.
  destruct (mkdir _ EVAL_RUNS_DIR); [|differs].
  unfold ret at 1. unfold bind at 1, _require_registry_key.
  destruct REGISTRY_API_KEY as [[|k0 key]|]; try differs.
  unfold ret at 1. unfold bind at 1, _now_utc_iso, effect at 1.
  unfold bind at 1, run_process, bind at 1, effect at 1.
  destruct (subprocess_run _ _ _) as [proc|]; [|differs].
  unfold ret at 1. apply eval_outcome_not_validation.
Qed.

(** X27: whatever the environment holds, a request that omits
    [inference_url] never fails with the error "inference_url is required":
    the default is a configured URL that is not blank, or the built-in
    one. *)
Theorem omitted_inference_url_never_invalid
    (environ : pystr -> option pystr) (service_dir runs_dir : Path) (b : dict) (tr : trace) :
  b !! str "inference_url" = None ->
  (run_eval (cfg := load_config environ service_dir runs_dir) (JDict b) tr).1
  <> Raise inference_url_required.
Proof.
  intros Hnone.
  set (cfg := load_config environ service_dir runs_dir).
  apply (usable_inference_url_passes (cfg := cfg) b (_default_inference_url (cfg := cfg))).
  - unfold dict_get. rewrite Hnone. reflexivity.
  - unfold _default_inference_url.
    pose proof (clean_base_url_shape
                  (getenv_or environ (str "CAIA_ONYX_API_URL") (str "http://127.0.0.1:8000")))
      as Hshape.
    change (_clean_base_url _) with (ONYX_API_URL (Config := cfg)) in Hshape.
    destruct Hshape as [-> | [(c & t & -> & Hc) _]]; [reflexivity|].
    simpl. pose proof (strip_nonempty_of_head c t Hc) as Hne.
    destruct (strip (c :: t)); [congruence | reflexivity].
Qed.

End DefaultUrl.

(** ** Allowed origins *)

Lemma In_lstrip_by_inv p c s : In c (lstrip_by p s) -> In c s.
Proof.
  induction s as [|x s IH]; simpl; [tauto|].
  destruct (p x); [auto | simpl; tauto].
Qed.

Lemma In_rstrip_by_inv p c s : In c (rstrip_by p s) -> In c s.
Proof.
  induction s as [|x s IH]; simpl; [tauto|].
  destruct (rstrip_by p s) as [|y t].
  - destruct (p x); simpl; tauto.
  - simpl. intros [-> | H]; [auto|]. right. apply IH. exact H.
Qed.

Lemma In_strip_inv c s : In c (strip s) -> In c s.
Proof. intros H. apply In_rstrip_by_inv with is_whitespace, In_lstrip_by_inv with is_whitespace, H. Qed.

Lemma split_on_parts sep s part : In part (split_on sep s) -> ~ In sep part.
Proof.
  revert part. induction s as [|c s IH]; simpl; intros part.
  - intros [<- | []]. simpl. tauto.
  - destruct (N.eqb_spec c sep) as [-> | Hne].
    + intros [<- | H]; [simpl; tauto | apply IH; exact H].
    + destruct (split_on sep s) as [|w ws].
      * intros [<- | []]. simpl. intros [-> | []]. congruence.
      * intros [<- | H].
        -- simpl. intros [-> | Hin]; [congruence|]. apply (IH w); [left; reflexivity | exact Hin].
        -- apply IH. right. exact H.
Qed.

(** X28: every entry read from a comma-separated variable is non-empty, has
    no white space around it and holds no comma; an unset variable gives no
    entry; and the list of allowed origins is never empty, since the four
    development origins stand in for an empty one. *)
Theorem env_csv_entries_are_clean (environ : pystr -> option pystr) (name : pystr) :
  (forall entry, In entry (_env_csv environ name) ->
                 entry <> [] /\ strip entry = entry /\ ~ In 44%N entry)
  /\ (environ name = None -> _env_csv environ name = [])
  /\ CORS_ORIGINS environ <> [].
Proof.
  split; [|split].
  - intros entry. unfold _env_csv. destruct (environ name) as [raw|]; [|intros []].
    rewrite in_flat_map. intros (part & Hpart & Hentry).
    destruct (strip part) as [|c w] eqn:E; [destruct Hentry|].
    destruct Hentry as [<- | []]. split; [discriminate|]. split.
    + rewrite <- E. apply strip_idempotent.
    + intros Hin. rewrite <- E in Hin. apply In_strip_inv in Hin.
      exact (split_on_parts 44%N raw part Hpart Hin).
  - intros H. unfold _env_csv. rewrite H. reflexivity.
  - unfold CORS_ORIGINS. destruct (_env_csv environ _); discriminate.
Qed.

Lemma split_on_plain sep w : ~ In sep w -> split_on sep w = [w].
Proof.
  induction w as [|c w IH]; simpl; [reflexivity|].
  intros H. destruct (N.eqb_spec c sep) as [-> | _]; [tauto|].
  rewrite IH by tauto. reflexivity.
Qed.

Lemma split_on_app sep w rest :
  ~ In sep w -> split_on sep (w ++ sep :: rest) = w :: split_on sep rest.
Proof.
  induction w as [|c w IH]; simpl.
  - intros _. rewrite N.eqb_refl. reflexivity.
  - intros H. destruct (N.eqb_spec c sep) as [-> | _]; [tauto|].
    rewrite IH by tauto. reflexivity.
Qed.

Lemma split_on_join sep parts :
  parts <> [] -> Forall (fun w => ~ In sep w) parts ->
  split_on sep (join_with sep parts) = parts.
Proof.
  induction parts as [|w parts IH]; [congruence|].
  intros _ Hall. inversion Hall as [|? ? Hw Hrest]; subst.
  destruct parts as [|w' parts].
  - simpl. apply split_on_plain. exact Hw.
  - change (join_with sep (w :: w' :: parts)) with (w ++ sep :: join_with sep (w' :: parts)).
    rewrite split_on_app by exact Hw. rewrite IH; [reflexivity | discriminate | exact Hrest].
Qed.

(** X29: reading back a list of entries written with commas between them
    gives the same list, provided each entry is non-empty, trimmed and holds
    no comma. *)
Theorem env_csv_reads_back (entries : list pystr) (name : pystr) :
  Forall (fun w => w <> [] /\ strip w = w /\ ~ In 44%N w) entries ->
  _env_csv (fun _ => Some (join_with 44%N entries)) name = entries.
Proof.
  intros Hall. unfold _env_csv.
  assert (Hkeep : flat_map (fun part => match strip part with [] => [] | w => [w] end)
                    entries = entries).
  { induction entries as [|x l IH]; [reflexivity|].
    inversion Hall as [|? ? (Hne & Hstrip & _) Hrest]; subst.
    simpl. rewrite Hstrip. destruct x; [congruence|]. simpl. rewrite (IH Hrest). reflexivity. }
  destruct entries as [|w entries]; [reflexivity|].
  rewrite split_on_join; [exact Hkeep | discriminate |].
  eapply Forall_impl; [exact Hall|]. intros x (_ & _ & H). exact H.
Qed.

(** ** Listing the runs *)

Section Listing.
Context {cfg : Config} {rt : Runtime}.

(** The loop reads each path once, in order, and never fails; it keeps at
    most one object per path, each with a [summary_path]. *)
Lemma read_summaries_run (paths : list Path) (tr : trace) :
  exists out,
    read_summaries paths tr = (Ok out, tr ++ map ReadText paths)
    /\ (length out <= length paths)%nat
    /\ Forall (fun item => exists d : dict,
                 item = JDict d /\ is_Some (d !! str "summary_path")) out.
Proof.
  revert tr. induction paths as [|p rest IH]; intros tr.
  - exists []. rewrite app_nil_r. repeat split; [simpl; lia | constructor].
  - destruct (IH (tr ++ [ReadText p])) as (out & Hrun & Hlen & Hall).
    rewrite <- app_assoc in Hrun. simpl in Hrun.
    assert (Hskip : exists out',
               read_summaries rest (tr ++ [ReadText p])
               = (Ok out', tr ++ map ReadText (p :: rest))
               /\ (length out' <= length (p :: rest))%nat
               /\ Forall (fun item => exists d : dict,
                            item = JDict d /\ is_Some (d !! str "summary_path")) out').
    { exists out. repeat split; [exact Hrun | simpl; lia | exact Hall]. }
    simpl read_summaries. unfold bind at 1, effect at 1.
    destruct (read_text tr p) as [t|]; [|exact Hskip].
    destruct (json_loads t) as [e|v]; [exact Hskip|].
    destruct v as [| | | | | |obj]; try exact Hskip.
    unfold bind. rewrite Hrun. unfold ret.
    eexists. repeat split; [simpl; lia|].
    constructor; [|exact Hall].
    eexists. split; [reflexivity|]. unfold setdefault.
    destruct (obj !! str "summary_path") as [v|] eqn:E.
    + rewrite E. eexists. reflexivity.
    + rewrite lookup_insert_eq. eexists. reflexivity.
Qed.

(** X30: when the runs directory can be made and listed, the listing of runs
    succeeds whatever the files hold: it reads only the first [limit]
    summaries, newest first, skips those it cannot read or decode, returns
    at most [limit] objects, and each of them has a [summary_path]. *)
Theorem list_eval_runs_bounded (newest : trace -> option (list Path)) (limit : Z)
    (summaries : list Path) (tr : trace) :
  mkdir tr EVAL_RUNS_DIR = true ->
  newest (tr ++ [Mkdir EVAL_RUNS_DIR]) = Some summaries ->
  0 <= limit ->
  exists out,
    list_eval_runs newest limit tr =
    (Ok out, tr ++ Mkdir EVAL_RUNS_DIR :: map ReadText (take (Z.to_nat limit) summaries))
    /\ (length out <= Z.to_nat limit)%nat
    /\ Forall (fun item => exists d : dict,
                 item = JDict d /\ is_Some (d !! str "summary_path")) out.
Proof.
  intros Hmkdir Hlist Hlimit.
  unfold list_eval_runs, bind, make_runs_dir, bind, effect. rewrite Hmkdir.
  unfold ret. cbv beta iota. rewrite Hlist.
  unfold py_prefix. apply Z.leb_le in Hlimit. rewrite Hlimit.
  destruct (read_summaries_run (take (Z.to_nat limit) summaries) (tr ++ [Mkdir EVAL_RUNS_DIR]))
    as (out & Hrun & Hlen & Hall).
  exists out. rewrite Hrun, <- app_assoc. repeat split; [|exact Hall].
  rewrite length_take in Hlen. lia.
Qed.

End Listing.

(** ** The further scenarios, run *)

(** *** Run identifiers *)

Lemma safe_run_id_sound_witness :
  str "run-42" = strip (str " run-42 ") /\ str "run-42" <> []
  /\ (forall c, In c [47%N; 92%N; 0%N] -> ~ In c (str "run-42"))
  /\ ([] : trace) = [].
Proof.
  apply (safe_run_id_sound (str " run-42 ") (str "run-42") [] []). by_evaluation.
Defined.

Lemma safe_run_id_idempotent_witness :
  _safe_run_id (str "run-42") [] = (Ok (str "run-42"), []).
Proof.
  apply (safe_run_id_idempotent (str " run-42 ") (str "run-42") [] []). by_evaluation.
Defined.

Lemma blank_run_id_rejected_witness :
  get_eval_summary (cfg := sample_config) (rt := runs_on_disk) (str "   ") [] =
  (Raise {| exc_status := 400; exc_detail := JStr (str "eval_run_id is required") |}, [])
  /\ get_eval_jsonl (cfg := sample_config) (rt := runs_on_disk) (str "   ") [] =
     (Raise {| exc_status := 400; exc_detail := JStr (str "eval_run_id is required") |}, []).
Proof.
  apply (blank_run_id_rejected (cfg := sample_config) (rt := runs_on_disk) (str "   ") []).
  by_evaluation.
Defined.

Lemma missing_run_file_is_404_witness :
  get_eval_summary (cfg := sample_config) (rt := runs_on_disk) (str "run-7") [] =
  (Raise {| exc_status := 404; exc_detail := JStr (str "Eval summary not found") |},
   [] ++ [PathExists (PathDiv (EVAL_RUNS_DIR (Config := sample_config))
                        (str "run-7" ++ str "_summary.json"))])
  /\ get_eval_jsonl (cfg := sample_config) (rt := runs_on_disk) (str "run-7") [] =
     (Raise {| exc_status := 404; exc_detail := JStr (str "Eval jsonl not found") |},
      [] ++ [PathExists (PathDiv (EVAL_RUNS_DIR (Config := sample_config))
                           (str "run-7" ++ str ".jsonl"))]).
Proof.
  destruct (missing_run_file_is_404 (cfg := sample_config) (rt := runs_on_disk)
              (str "run-7") (str "run-7") []) as [Hsummary Hlog]; [by_evaluation|].
  split; [apply Hsummary | apply Hlog]; by_evaluation.
Defined.

Lemma existing_run_file_served_witness :
  get_eval_summary (cfg := sample_config) (rt := runs_on_disk) (str "run-42") [] =
  (Ok (JDict good_run_fields),
   [] ++ [PathExists (PathDiv (EVAL_RUNS_DIR (Config := sample_config))
                        (str "run-42" ++ str "_summary.json"));
          ReadText (PathDiv (EVAL_RUNS_DIR (Config := sample_config))
                      (str "run-42" ++ str "_summary.json"))])
  /\ get_eval_jsonl (cfg := sample_config) (rt := runs_on_disk) (str "run-42") [] =
     (Ok (PathDiv (EVAL_RUNS_DIR (Config := sample_config)) (str "run-42" ++ str ".jsonl")),
      [] ++ [PathExists (PathDiv (EVAL_RUNS_DIR (Config := sample_config))
                           (str "run-42" ++ str ".jsonl"))])
  /\ get_eval_summary (cfg := sample_config) (rt := diverged_run_on_disk) (str "run-43") [] =
     (Uncaught (str "ValueError"),
      [] ++ [PathExists (PathDiv (EVAL_RUNS_DIR (Config := sample_config))
                           (str "run-43" ++ str "_summary.json"));
             ReadText (PathDiv (EVAL_RUNS_DIR (Config := sample_config))
                         (str "run-43" ++ str "_summary.json"))]).
Proof.
  destruct (existing_run_file_served (cfg := sample_config) (rt := runs_on_disk)
              (str "run-42") (str "run-42")
              (body "{'eval_run_id': 'run-42', 'accuracy': 1}") (JDict good_run_fields) [])
    as [Hsummary Hlog]; [by_evaluation|].
  destruct (existing_run_file_served (cfg := sample_config) (rt := diverged_run_on_disk)
              (str "run-43") (str "run-43")
              (body diverged_run_text) (JDict diverged_run_fields) [])
    as [Hdiverged _]; [by_evaluation|].
  split; [apply Hsummary | split; [apply Hlog | apply Hdiverged]]; by_evaluation.
Defined.

(** *** The upstream client *)

Lemma upstream_transport_failure_witness :
  _request_upstream (rt := network_down) (str "onyx-api") (str "http://onyx:8000")
    (str "GET") (str "/models_loaded") JNull JNull ∅ [] =
  (Raise {| exc_status := 502;
            exc_detail := JStr (str "onyx-api" ++ str " request failed: "
                                ++ str "All connection attempts failed") |},
   [] ++ [HttpCall (upstream_request (str "http://onyx:8000") (str "GET")
                      (str "/models_loaded") JNull JNull ∅)]).
Proof.
  apply (upstream_transport_failure (rt := network_down)); by_evaluation.
Defined.

Lemma upstream_body_decoded_witness :
  _request_upstream (rt := onyx_models) (str "onyx-api") (str "http://onyx:8000")
    (str "GET") (str "/models_loaded") JNull JNull ∅ [] =
  (Ok (JList [JStr (str "onyx-7b")]),
   [] ++ [HttpCall (upstream_request (str "http://onyx:8000") (str "GET")
                      (str "/models_loaded") JNull JNull ∅)]).
Proof.
  etransitivity.
  - apply (upstream_body_decoded (rt := onyx_models))
      with (resp := ok_json "['onyx-7b']"); by_evaluation.
  - by_evaluation.
Defined.

(** *** Pass-through endpoints *)

Lemma unconfigured_upstream_is_not_called_witness :
  onyx_models_loaded (cfg := no_onyx_config) (rt := network_down) [] =
  (Raise (not_configured "onyx-api"), [])
  /\ artifact_health (cfg := no_cache_config) (rt := network_down) [] =
     (Raise (not_configured "artifact-cache-service"), []).
Proof.
  split.
  - apply (proj1 (unconfigured_upstream_is_not_called (cfg := no_onyx_config)
                    (rt := network_down) JNull [])). by_evaluation.
  - apply (proj2 (unconfigured_upstream_is_not_called (cfg := no_cache_config)
                    (rt := network_down) JNull [])). by_evaluation.
Defined.

Lemma registry_key_required_witness :
  stats (cfg := keyless_config) (rt := network_down) [] = (Raise registry_key_missing, [])
  /\ promote_model (cfg := keyless_config) (rt := network_down) 7 (str "production") []
     = (Raise registry_key_missing, []).
Proof.
  destruct (registry_key_required (cfg := keyless_config) (rt := network_down)
              7 50 0 None None None None None (str "updated_at") (str "desc")
              (str "production") [])
    as (Hstats & _ & _ & _ & _ & Hpromote & _); [by_evaluation|].
  split; assumption.
Defined.

Lemma registry_requests_carry_key_witness :
  (stats (cfg := sample_config) (rt := network_down) []).2 =
  [] ++ [registry_call (cfg := sample_config) (str "reg-key") (str "GET") (str "/stats") JNull]
  /\ (promote_model (cfg := sample_config) (rt := network_down) 7 (str "production") []).2 =
     [] ++ [registry_call (cfg := sample_config) (str "reg-key") (str "POST")
              ((str "/models/" ++ str_of_Z 7) ++ str "/promote")
              (JDict (dict_of [(str "to_status", JStr (str "production"))]))].
Proof.
  destruct (registry_requests_carry_key (cfg := sample_config) (rt := network_down)
              (str "reg-key") 7 50 0 None None None None None (str "updated_at") (str "desc")
              (str "production") [])
    as (Hstats & _ & _ & _ & _ & Hpromote); [by_evaluation | by_evaluation | by_evaluation |].
  split; assumption.
Defined.

Lemma health_probes_are_unauthenticated_witness :
  (health (cfg := sample_config) (rt := network_down) []).2 =
  [] ++ (health_probe_call (REGISTRY_URL (Config := sample_config))
           ++ health_probe_call (ARTIFACT_CACHE_URL (Config := sample_config))
           ++ health_probe_call (ONYX_API_URL (Config := sample_config))
           ++ [PathExists (EVAL_SERVICE_DIR (Config := sample_config))]).
Proof.
  destruct (health_probes_are_unauthenticated (cfg := sample_config) (rt := network_down) [])
    as [_ Hall].
  apply Hall. by_evaluation.
Defined.

(** *** Checkpoint resolution *)


Lemma malformed_model_record_witness :
  resolve_model_checkpoint (cfg := sample_config)
    (rt := registry_with_model unplaced_model_text) 7 [] =
  (Raise {| exc_status := 400; exc_detail := JStr (str "Model is missing artifact_uri") |},
   model_fetch)
  /\ resolve_model_checkpoint (cfg := sample_config) (rt := registry_with_model "[1, 2]") 7 [] =
     (Raise {| exc_status := 502;
               exc_detail := JStr (str "model-registry returned invalid model payload") |},
      model_fetch).
Proof.
  split.
  - apply (proj2 (malformed_model_record (cfg := sample_config)
                    (rt := registry_with_model unplaced_model_text)
                    7 [] model_fetch (JDict unplaced_model) ltac:(by_evaluation))
             unplaced_model eq_refl).
    by_evaluation.
  - apply (proj1 (malformed_model_record (cfg := sample_config)
                    (rt := registry_with_model "[1, 2]")
                    7 [] model_fetch (JList [JInt 1; JInt 2]) ltac:(by_evaluation))).
    intros m. discriminate.
Defined.

(** *** Evaluation runs *)

Lemma validation_errors_precede_effects_witness :
  (run_eval (cfg := sample_config) (rt := eval_runtime good_run ticking_clock)
     (JDict bogus_request) []).2 = [].
Proof.
  apply (validation_errors_precede_effects (cfg := sample_config)
           (rt := eval_runtime good_run ticking_clock) (JDict bogus_request) []
           {| exc_status := 400;
              exc_detail :=
                JStr (str "suite must be one of: smoke-v1, core-v1, math-corpus-v1") |});
    by_evaluation.
Defined.


Lemma invalid_process_output_witness :
  run_eval (cfg := sample_config) (rt := eval_runtime garbled_run ticking_clock)
    (JDict smoke_request) [] =
  (Raise {| exc_status := 502;
            exc_detail :=
              JDict (dict_of
                [(str "upstream", JStr (str "caiatech-eval-service"));
                 (str "error", JStr (str "Invalid JSON on stdout: "
                                     ++ str "Expecting value: line 1 column 1 (char 0)"));
                 (str "stdout", JStr (strip (stdout garbled_run)))]) |},
   after_spawn (cfg := sample_config) (rt := eval_runtime garbled_run ticking_clock)
     [] (smoke_command "http://onyx:8000")).
Proof.
  apply (invalid_process_output (cfg := sample_config)
           (rt := eval_runtime garbled_run ticking_clock)
           smoke_request [] (str "smoke-v1") (str "http://onyx:8000") (str "reg-key")
           (smoke_command "http://onyx:8000") garbled_run
           (str "Expecting value: line 1 column 1 (char 0)"));
    [scenario | by_evaluation | by_evaluation].
Defined.

Lemma process_output_without_run_id_witness :
  run_eval (cfg := sample_config) (rt := eval_runtime anonymous_run ticking_clock)
    (JDict smoke_request) [] =
  (Raise {| exc_status := 502;
            exc_detail :=
              JDict (dict_of
                [(str "upstream", JStr (str "caiatech-eval-service"));
                 (str "error", JStr (str "Missing eval_run_id"))]) |},
   after_spawn (cfg := sample_config) (rt := eval_runtime anonymous_run ticking_clock)
     [] (smoke_command "http://onyx:8000")).
Proof.
  apply (process_output_without_run_id (cfg := sample_config)
           (rt := eval_runtime anonymous_run ticking_clock)
           smoke_request [] (str "smoke-v1") (str "http://onyx:8000") (str "reg-key")
           (smoke_command "http://onyx:8000") anonymous_run
           (JDict (dict_of [(str "status", JStr (str "ok"))])));
    [scenario | by_evaluation | by_evaluation |].
  intros d run_id [= <-]. by_evaluation.
Defined.

Lemma missing_eval_service_witness :
  run_eval (cfg := sample_config) (rt := runner_absent) (JDict smoke_request) [] =
  (Raise {| exc_status := 503;
            exc_detail :=
              JStr (str "Eval service not found at "
                    ++ path_str (Runtime := runner_absent)
                         (EVAL_SERVICE_DIR (Config := sample_config))
                    ++ str " (set CAIA_EVAL_SERVICE_DIR)") |},
   [] ++ [PathExists (runner_path (cfg := sample_config))]).
Proof.
  apply (missing_eval_service (cfg := sample_config) (rt := runner_absent)
           smoke_request (str "smoke-v1") (str "http://onyx:8000") []);
    [by_evaluation | by_evaluation | vm_compute; auto | by_evaluation | by_evaluation
    | by_evaluation].
Defined.

Lemma unrelated_fields_ignored_witness :
  run_eval (cfg := sample_config) (rt := eval_runtime good_run ticking_clock)
    (JDict annotated_request) [] =
  run_eval (cfg := sample_config) (rt := eval_runtime good_run ticking_clock)
    (JDict smoke_request) [].
Proof.
  apply (unrelated_fields_ignored (cfg := sample_config)
           (rt := eval_runtime good_run ticking_clock)
           smoke_request (str "note") (JStr (str "nightly")) []).
  not_among.
Defined.

(** *** Configuration and listing *)

Lemma omitted_inference_url_never_invalid_witness :
  (run_eval (rt := eval_runtime good_run ticking_clock)
     (cfg := load_config sample_environ (PathOf (str "/srv/eval")) (PathOf (str "/srv/runs")))
     (JDict smoke_request) []).1
  <> Raise inference_url_required.
Proof.
  apply (omitted_inference_url_never_invalid (rt := eval_runtime good_run ticking_clock)
           sample_environ (PathOf (str "/srv/eval")) (PathOf (str "/srv/runs"))
           smoke_request []).
  by_evaluation.
Defined.

Lemma env_csv_reads_back_witness :
  _env_csv (fun _ => Some (join_with 44%N [str "http://a.example"; str "http://b.example"]))
    (str "CAIA_DASHBOARD_CORS_ORIGINS")
  = [str "http://a.example"; str "http://b.example"].
Proof.
  apply (env_csv_reads_back [str "http://a.example"; str "http://b.example"]
           (str "CAIA_DASHBOARD_CORS_ORIGINS")).
  constructor; [repeat apply conj; first [by_evaluation | not_among]|].
  constructor; [repeat apply conj; first [by_evaluation | not_among]|].
  constructor.
Defined.

Lemma list_eval_runs_bounded_witness :
  exists out,
    list_eval_runs (cfg := sample_config) (rt := runs_on_disk) two_summaries 50 [] =
    (Ok out,
     [] ++ Mkdir (EVAL_RUNS_DIR (Config := sample_config))
        :: map ReadText
             (take (Z.to_nat 50)
                [PathDiv (PathOf (str "/srv/runs")) (str "broken_summary.json");
                 PathDiv (PathOf (str "/srv/runs")) (str "run-42_summary.json")]))
    /\ (length out <= Z.to_nat 50)%nat
    /\ Forall (fun item => exists d : dict,
                 item = JDict d /\ is_Some (d !! str "summary_path")) out.
Proof.
  apply (list_eval_runs_bounded (cfg := sample_config) (rt := runs_on_disk)
           two_summaries 50
           [PathDiv (PathOf (str "/srv/runs")) (str "broken_summary.json");
            PathDiv (PathOf (str "/srv/runs")) (str "run-42_summary.json")] []);
    by_evaluation.
Defined.
